(** * The warehouse inventory engine (package postgres) over a transactional store

    A shallow embedding of the engine operations of [PInventoryDB]
    (GetProductStock, UploadProducts, UploadInventory, SellProduct) and of the
    part of [database/sql] and [strconv] they call.

    - The database is a pair of tables; a transaction works on a private copy
      of them (its view) that [Commit] publishes and [Rollback] discards.
    - Every call of [database/sql] that returns an [error] to the engine
      (BeginTx, Query, Rows.Next, Rows.Scan, ExecContext, Commit) asks the
      world whether it fails: the world carries a schedule of failures indexed
      by a call counter, so a run is a function of the starting world.
    - Logging, the request id and the context argument play no part in the
      results and are left out. *)

From Stdlib Require Import ZArith String Ascii DecimalString List Bool Lia.
Import ListNotations.

(** ** Payload types (package data, as the engine uses them) *)

Module data.

(** Modelled from the spec: the type data.Stock, whose declaration is missing;
    the fields are those the engine reads and writes, all of them text (the
    quantity is transmitted as decimal text). *)
Record Stock := mkStock
  { Stock_ArtId : string; Stock_Name : string; Stock_Stock : string }.

(** Modelled from the spec: the type data.Inventory, whose declaration is
    missing; an ordered sequence of stock records. *)
Record Inventory := mkInventory { Inventory_ : list Stock }.

(** Modelled from the spec: the type of the elements of ContainArticles,
    whose declaration is missing; an article id and the amount required. *)
Record ContainArticle := mkContainArticle
  { ArtId : string; AmountOf : string }.

(** Modelled from the spec: the type of the elements of data.Products, whose
    declaration is missing; a name and a composition list. *)
Record Product := mkProduct
  { Name : string; ContainArticles : list ContainArticle }.

(** Modelled from the spec: the type data.Products, whose declaration is
    missing; an ordered sequence of products. *)
Record Products := mkProducts { Products_ : list Product }.

(** Modelled from the spec: the type data.ProductStock, whose declaration is
    missing; the fields are those GetProductStock fills. *)
Record ProductStock := mkProductStock
  { ProductStock_Name : string; AvailableProductNo : string }.

Definition ProductStocks := list ProductStock.

End data.

(** ** strconv.ParseInt(s, 10, 64)

    The Go standard library function, specialised to the base and bit size
    GetProductStock passes. It returns a value together with an optional
    [*NumError]; the value is 0 on a syntax error and the nearest bound of
    int64 on a range error. *)

Module strconv.

Inductive NumError := ErrSyntax | ErrRange.

Definition maxUint64 : Z := 2 ^ 64 - 1.

Definition uint64 (z : Z) : Z := z mod 2 ^ 64.

Definition int64 (z : Z) : Z := (z + 2 ^ 63) mod 2 ^ 64 - 2 ^ 63.

Definition byteOf (c : ascii) : Z := Z.of_N (N_of_ascii c).

(** [lower(c)] is [c | ('x' - 'X')]. *)
Definition lower (c : Z) : Z := Z.lor c 32.

(** The digit loop of [ParseUint(s, 10, 64)], from the accumulator [n]. *)
Fixpoint parseUintFrom (s : string) (n : Z) : Z * option NumError :=
  match s with
  | EmptyString => (n, None)
  | String ch rest =>
      let c := byteOf ch in
      let digit :=
        if (48 <=? c) && (c <=? 57) then Some (c - 48)
        else if (97 <=? lower c) && (lower c <=? 122)
             then Some (lower c - 97 + 10)
             else None in
      match digit with
      | None => (0, Some ErrSyntax)
      | Some d =>
          if d >=? 10 then (0, Some ErrSyntax)
          else if n >=? maxUint64 / 10 + 1 then (maxUint64, Some ErrRange)
          else
            let n10 := uint64 (n * 10) in
            let n1 := uint64 (n10 + d) in
            if (n1 <? n10) || (n1 >? maxUint64)
            then (maxUint64, Some ErrRange)
            else parseUintFrom rest n1
      end
  end%Z.

Definition ParseUint (s : string) : Z * option NumError :=
  match s with
  | EmptyString => (0%Z, Some ErrSyntax)
  | _ => parseUintFrom s 0
  end.

Definition ParseInt (s : string) : Z * option NumError :=
  match s with
  | EmptyString => (0%Z, Some ErrSyntax)
  | String s0 tail =>
      let signed :=
        if Ascii.eqb s0 "+" then (false, tail)
        else if Ascii.eqb s0 "-" then (true, tail)
        else (false, s) in
      let neg := fst signed in
      let '(un, err) := ParseUint (snd signed) in
      match err with
      | Some ErrSyntax => (0, err)
      | _ =>
          let cutoff := 2 ^ 63 in
          if negb neg && (un >=? cutoff) then (int64 (cutoff - 1), Some ErrRange)
          else if neg && (un >? cutoff) then (int64 (- int64 cutoff), Some ErrRange)
          else
            let n := int64 un in
            (if neg then int64 (- n) else n, None)
      end
  end%Z.

End strconv.

(** ** The store *)

(** A Go [error] that is not nil. *)
Inductive error :=
| StoreError (reason : string)      (* raised by database/sql or the driver *)
| ErrorsNew (text : string).        (* errors.New(text) *)

Inductive result (T : Type) :=
| Ok (v : T)
| Err (e : error).
Arguments Ok {T} v.
Arguments Err {T} e.

(** Modelled from the spec: a persisted composition row, whose table is not
    declared in the sources: (product name, article id, amount required). *)
Record Composition := mkComposition
  { comp_product : string; comp_article : string; comp_amount : string }.

(** Modelled from the spec: the persisted tables, not declared in the
    sources: the stock records and the composition rows. *)
Record DB := mkDB
  { articles : list data.Stock; compositions : list Composition }.

(** The statements of the query set, by the names of their constants. *)
Inductive Statement :=
| getProductStock | productExist | inStock
| updateSaleInfo | insertProduct | insertStock.

Inductive TxStatus := NoTx | Active | Committed | CommitFailed | RolledBack.

Inductive Call :=
| CallBeginTx
| CallQuery (stmt : Statement) (args : list string)
| CallExec (stmt : Statement) (args : list string)
| CallCommit
| CallRollback.

Record World := mkWorld
  { persisted : DB;                   (* what committed transactions left *)
    view : DB;                        (* the tables as the transaction sees them *)
    status : TxStatus;                (* of the transaction of this call *)
    clock : nat;                      (* fallible store calls made so far *)
    faults : nat -> option error;     (* the failure, if any, of each of them *)
    journal : list Call }.            (* calls issued, oldest first *)

(** ** The state monad of the engine *)

Definition M (A : Type) : Type := World -> World * A.

Definition ret {A} (a : A) : M A := fun w => (w, a).

Definition bind {A B} (m : M A) (k : A -> M B) : M B :=
  fun w => let '(w1, a) := m w in k a w1.

Declare Scope engine_scope.
Delimit Scope engine_scope with engine.
Notation "x <- m ;; k" := (bind m (fun x => k))
  (at level 100, m at next level, right associativity) : engine_scope.
Notation "m ;;; k" := (bind m (fun _ => k))
  (at level 100, right associativity) : engine_scope.
Local Open Scope engine_scope.

(** [defer f] around a function body: [f] runs when the body returns. *)
Definition defer {A} (f : M unit) (body : M A) : M A :=
  a <- body ;; f ;;; ret a.

(** ** database/sql, as the engine uses it *)

(** The outcome of the next fallible store call. *)
Definition tick : M (option error) :=
  fun w =>
    (mkWorld (persisted w) (view w) (status w) (S (clock w)) (faults w) (journal w),
     faults w (clock w)).

Definition note (c : Call) : M unit :=
  fun w =>
    (mkWorld (persisted w) (view w) (status w) (clock w) (faults w) (journal w ++ [c]),
     tt).

Definition setTx (v : DB) (s : TxStatus) : M unit :=
  fun w => (mkWorld (persisted w) v s (clock w) (faults w) (journal w), tt).

Definition publish : M unit :=
  fun w => (mkWorld (view w) (view w) Committed (clock w) (faults w) (journal w), tt).

Definition get : M World := fun w => (w, w).

(** [db.BeginTx(ctx, nil)]: a transaction starts from the persisted tables;
    when it fails the call has no transaction. *)
Definition BeginTx : M (option error) :=
  note CallBeginTx ;;;
  err <- tick ;;
  match err with
  | Some e => w <- get ;; setTx (persisted w) NoTx ;;; ret (Some e)
  | None => w <- get ;; setTx (persisted w) Active ;;; ret None
  end.

(** [tx.Query(stmt, args...)]: the rows the statement selects in the view. *)
Definition Query {T} (stmt : Statement) (args : list string)
    (rows : DB -> list T) : M (result (list T)) :=
  note (CallQuery stmt args) ;;;
  err <- tick ;;
  match err with
  | Some e => ret (Err e)
  | None => w <- get ;; ret (Ok (rows (view w)))
  end.

(** [tx.ExecContext(ctx, stmt, args...)]: the statement changes the view. *)
Definition ExecContext (stmt : Statement) (args : list string)
    (change : DB -> DB) : M (option error) :=
  note (CallExec stmt args) ;;;
  err <- tick ;;
  match err with
  | Some e => ret (Some e)
  | None => w <- get ;; setTx (change (view w)) (status w) ;;; ret None
  end.

(** [tx.Commit()]: publishes the view, or fails and leaves the transaction
    finished with nothing published. *)
Definition Commit : M (option error) :=
  note CallCommit ;;;
  err <- tick ;;
  match err with
  | Some e => w <- get ;; setTx (persisted w) CommitFailed ;;; ret (Some e)
  | None => publish ;;; ret None
  end.

(** [tx.Rollback()]: discards the view of an active transaction; on a finished
    one it does nothing (ErrTxDone). Every caller drops its error. *)
Definition Rollback : M unit :=
  w <- get ;;
  match status w with
  | Active => note CallRollback ;;; setTx (persisted w) RolledBack
  | _ => ret tt
  end.

(** How a loop body ends: go on with the loop state, or return from the
    enclosing function. *)
Inductive flow (S R : Type) :=
| Continue (s : S)
| Return (r : R).
Arguments Continue {S R} s.
Arguments Return {S R} r.

(** [for rows.Next() { err = rows.Scan(&x); if err != nil { return ... }; body }].
    The loop ends with the loop state and what [rows.Err()] would report. *)
Fixpoint forRows {T S R} (rows : list T) (onScanErr : error -> R)
    (body : T -> S -> M (flow S R)) (s : S) : M (flow (S * option error) R) :=
  next <- tick ;;
  match next with
  | Some e => ret (Continue (s, Some e))
  | None =>
      match rows with
      | [] => ret (Continue (s, None))
      | x :: rest =>
          err <- tick ;;
          match err with
          | Some e => ret (Return (onScanErr e))
          | None =>
              r <- body x s ;;
              match r with
              | Continue s1 => forRows rest onScanErr body s1
              | Return v => ret (Return v)
              end
          end
      end
  end.

Definition len {A} (l : list A) : Z := Z.of_nat (length l).

(** ** The engine (methods of PInventoryDB) *)

Definition ProductNotFoundError : error :=
  ErrorsNew "this product is not in system, cannot be sold".

Definition OutOfStockError : error :=
  ErrorsNew "this product is not in stock, cannot be sold".

Section Engine.

(** What the statements of the query set compute on the tables. Their SQL
    text is not part of the engine, so the engine is stated over any
    meaning of them: the rows a query selects, the change an update makes. *)
Variable rows_getProductStock : DB -> list (string * string).
Variable rows_productExist : string -> DB -> list Z.
Variable rows_inStock : string -> DB -> list Z.
Variable exec_updateSaleInfo : string -> DB -> DB.
Variable exec_insertProduct : string -> string -> string -> DB -> DB.
Variable exec_insertStock : string -> string -> string -> DB -> DB.

(** The body of the scanning loop of GetProductStock, after the Scan of
    [(productName, stock)]; the loop state is the slice [stocks]. The error
    of ParseInt is dropped. *)
Definition keepAvailable (row : string * string) (stocks : data.ProductStocks)
    : M (flow data.ProductStocks (option error * data.ProductStocks)) :=
  let '(productName, stock) := row in
  let stockNo := fst (strconv.ParseInt stock) in
  if negb (stockNo =? 0)%Z
  then ret (Continue (stocks ++ [data.mkProductStock productName stock]))
  else ret (Continue stocks).

(** GetProductStock gets the stock of the available products in system. *)
Definition GetProductStock : M (option error * data.ProductStocks) :=
  err <- BeginTx ;;
  match err with
  | Some e => ret (Some e, [])
  | None =>
      defer Rollback
        (q <- Query getProductStock [] rows_getProductStock ;;
         match q with
         | Err e => ret (Some e, [])
         | Ok rows =>
             r <- forRows rows (fun e => (Some e, [])) keepAvailable [] ;;
             match r with
             | Return v => ret v
             | Continue (stocks, rowsErr) =>
                 match rowsErr with
                 | Some e => ret (Some e, [])
                 | None => ret (None, stocks)
                 end
             end
         end)
  end.

(** The inner loop of UploadProducts: one insert per composition entry;
    [Some e] when the function returns [(e, 0)] from inside the loop. *)
Fixpoint insertContains (name : string) (contains : list data.ContainArticle)
    : M (option error) :=
  match contains with
  | [] => ret None
  | contain :: rest =>
      err <- ExecContext insertProduct
               [name; data.ArtId contain; data.AmountOf contain]
               (exec_insertProduct name (data.ArtId contain) (data.AmountOf contain)) ;;
      match err with
      | Some e => Rollback ;;; ret (Some e)
      | None => insertContains name rest
      end
  end.

(** The outer loop of UploadProducts. *)
Fixpoint insertProducts (products : list data.Product) : M (option error) :=
  match products with
  | [] => ret None
  | product :: rest =>
      err <- insertContains (data.Name product) (data.ContainArticles product) ;;
      match err with
      | Some e => ret (Some e)
      | None => insertProducts rest
      end
  end.

(** UploadProducts inserts the product info into db. *)
Definition UploadProducts (product : data.Products) : M (option error * Z) :=
  err <- BeginTx ;;
  match err with
  | Some e => ret (Some e, 0%Z)
  | None =>
      failed <- insertProducts (data.Products_ product) ;;
      match failed with
      | Some e => ret (Some e, 0%Z)
      | None =>
          err <- Commit ;;
          match err with
          | Some _ => Rollback
          | None => ret tt
          end ;;;
          let insertedRecord := len (data.Products_ product) in
          ret (None, insertedRecord)
      end
  end.

(** The loop of UploadInventory: one insert per stock record. *)
Fixpoint insertStocks (records : list data.Stock) : M (option error) :=
  match records with
  | [] => ret None
  | inventoryRec :: rest =>
      err <- ExecContext insertStock
               [data.Stock_ArtId inventoryRec; data.Stock_Name inventoryRec;
                data.Stock_Stock inventoryRec]
               (exec_insertStock (data.Stock_ArtId inventoryRec)
                  (data.Stock_Name inventoryRec) (data.Stock_Stock inventoryRec)) ;;
      match err with
      | Some e => Rollback ;;; ret (Some e)
      | None => insertStocks rest
      end
  end.

(** UploadInventory inserts the inventory info into db. *)
Definition UploadInventory (inventoryToInsert : data.Inventory)
    : M (option error * Z) :=
  err <- BeginTx ;;
  match err with
  | Some e => ret (Some e, 0%Z)
  | None =>
      failed <- insertStocks (data.Inventory_ inventoryToInsert) ;;
      match failed with
      | Some e => ret (Some e, 0%Z)
      | None =>
          err <- Commit ;;
          match err with
          | Some _ => Rollback ;;; ret (None, 0%Z)
          | None =>
              let insertedRecord := len (data.Inventory_ inventoryToInsert) in
              ret (None, insertedRecord)
          end
      end
  end.

(** The body of each of the two scanning loops of SellProduct: the loop
    state is the variable [err], which a successful Scan sets to nil. *)
Definition blockOn (blocks : Z -> bool) (refusal : error) (flag : Z)
    (_ : option error) : M (flow (option error) (option error)) :=
  if blocks flag then ret (Return (Some refusal)) else ret (Continue None).

(** SellProduct checks if the product exist and in stock. If true then
    update inventory accordingly. Where the source returns the variable
    [err], so does this. *)
Definition SellProduct (productName : string) : M (option error) :=
  err <- BeginTx ;;
  match err with
  | Some e => ret (Some e)
  | None =>
      defer Rollback
        (q <- Query productExist [productName] (rows_productExist productName) ;;
         match q with
         | Err errQuery => ret err
         | Ok rows =>
             r <- forRows rows (fun e => Some e)
                    (blockOn (fun productExist => productExist =? 0)%Z
                       ProductNotFoundError) err ;;
             match r with
             | Return v => ret v
             | Continue (err, _) =>
                 q <- Query inStock [productName] (rows_inStock productName) ;;
                 match q with
                 | Err errQuery => ret err
                 | Ok rows =>
                     r <- forRows rows (fun e => Some e)
                            (blockOn (fun stockNo => negb (stockNo =? 0))%Z
                               OutOfStockError) err ;;
                     match r with
                     | Return v => ret v
                     | Continue (err, _) =>
                         err <- ExecContext updateSaleInfo [productName]
                                  (exec_updateSaleInfo productName) ;;
                         match err with
                         | Some e => Rollback ;;; ret (Some e)
                         | None =>
                             err <- Commit ;;
                             match err with
                             | Some e => Rollback ;;; ret (Some e)
                             | None => ret None
                             end
                         end
                     end
                 end
             end
         end)
  end.

End Engine.

(** ** The rest of the engine, its interface and the handlers of the server *)

Section Reading.

(** The constant getInventory is declared with the rest of the query set,
    outside the engine: its tag in the journal and the rows it selects are
    taken as given. *)
Variable getInventory : Statement.
Variable rows_getInventory : DB -> list (string * string * string).

(** The body of the scanning loop of GetInventory, after the Scan of
    [(artId, artName, stock)]; the loop state is the slice [stocks]. *)
Definition appendStock (row : string * string * string) (stocks : list data.Stock)
    : M (flow (list data.Stock) (option error * list data.Stock)) :=
  let '(artId, artName, stock) := row in
  ret (Continue (stocks ++ [data.mkStock artId artName stock])).

(** GetInventory gets all inventory/stock info in system. *)
Definition GetInventory : M (option error * list data.Stock) :=
  err <- BeginTx ;;
  match err with
  | Some e => ret (Some e, [])
  | None =>
      defer Rollback
        (q <- Query getInventory [] rows_getInventory ;;
         match q with
         | Err e => ret (Some e, [])
         | Ok rows =>
             r <- forRows rows (fun e => (Some e, [])) appendStock [] ;;
             match r with
             | Return v => ret v
             | Continue (stocks, rowsErr) =>
                 match rowsErr with
                 | Some e => ret (Some e, [])
                 | None => ret (None, stocks)
                 end
             end
         end)
  end.

End Reading.

(** Ping verifies a connection to the database is still alive: one fallible
    store call, outside any transaction. *)
Definition Ping : M (option error) := tick.

(** [err.Error()]. *)
Definition Error (e : error) : string :=
  match e with
  | StoreError reason => reason
  | ErrorsNew text => text
  end.

Module db.

(** Modelled from the spec: the interface db.Inventory, whose declaration is
    missing; its methods are those the server calls and PInventoryDB
    implements. *)
Record Inventory := mkInventory
  { Ping : M (option error);
    GetInventory : M (option error * list data.Stock);
    GetProductStock : M (option error * data.ProductStocks);
    UploadProducts : data.Products -> M (option error * Z);
    UploadInventory : data.Inventory -> M (option error * Z);
    SellProduct : string -> M (option error) }.

End db.

(** The meaning of the eight constants of the query set. *)
Record QuerySet := mkQuerySet
  { tag_getInventory : Statement;
    sel_getInventory : DB -> list (string * string * string);
    sel_getProductStock : DB -> list (string * string);
    sel_productExist : string -> DB -> list Z;
    sel_inStock : string -> DB -> list Z;
    upd_updateSaleInfo : string -> DB -> DB;
    ins_insertProduct : string -> string -> string -> DB -> DB;
    ins_insertStock : string -> string -> string -> DB -> DB }.

(** PInventoryDB as a db.Inventory: the value NewPInventory returns, once
    the connection is open. *)
Definition PInventoryDB (qs : QuerySet) : db.Inventory :=
  db.mkInventory Ping
    (GetInventory (tag_getInventory qs) (sel_getInventory qs))
    (GetProductStock (sel_getProductStock qs))
    (UploadProducts (ins_insertProduct qs))
    (UploadInventory (ins_insertStock qs))
    (SellProduct (sel_productExist qs) (sel_inStock qs) (upd_updateSaleInfo qs)).

Module api.

(** Modelled from the spec: the type api.ResponseError, whose declaration is
    missing; the one field the handlers fill. *)
Record ResponseError := mkResponseError { Error_Message : string }.

(** Modelled from the spec: the type api.ResponseProduct, whose declaration
    is missing; the fields are those the handlers fill, the others keep
    their zero value. *)
Record ResponseProduct := mkResponseProduct
  { Message : string;
    Inventory : list data.Stock;
    ProductStocks : data.ProductStocks }.

(** What [context.JSON(code, obj)] sends: the status and the object. *)
Definition Response : Type := Z * (ResponseError + ResponseProduct).

Definition StatusOK : Z := 200.
Definition StatusBadRequest : Z := 400.
Definition StatusNotFound : Z := 404.
Definition StatusInternalServerError : Z := 500.

Definition failure (code : Z) (message : string) : Response :=
  (code, inl (mkResponseError message)).

(** [fmt.Sprintf("%d", n)]. *)
Definition Sprintf_d (n : Z) : string := NilZero.string_of_int (Z.to_int n).

Section Server.

Variable Inventory : db.Inventory.

(** isHealthy checks if the service is available to respond. *)
Definition isHealthy : M Response :=
  err <- db.Ping Inventory ;;
  match err with
  | Some _ => ret (failure StatusInternalServerError "unhealthy endpoint")
  | None => ret (failure StatusOK "healthy endpoint")
  end.

(** getInventory provides inventory/stock info. *)
Definition getInventory : M Response :=
  r <- db.GetInventory Inventory ;;
  let '(err, stocks) := r in
  match err with
  | Some e => ret (failure StatusNotFound (Error e))
  | None => ret (StatusOK, inr (mkResponseProduct "" stocks []))
  end.

(** getProductStock provides the stock info of available products in
    system. *)
Definition getProductStock : M Response :=
  r <- db.GetProductStock Inventory ;;
  let '(err, stocks) := r in
  match err with
  | Some e => ret (failure StatusNotFound (Error e))
  | None =>
      let product :=
        if (len stocks =? 0)%Z
        then mkResponseProduct "No product in stock" [] []
        else mkResponseProduct "" [] stocks in
      ret (StatusOK, inr product)
  end.

(** uploadProducts inserts given products to system. [body] is what
    ioutil.ReadAll and json.Unmarshal make of the request: the decoded
    products, or the message of the error of the one that failed. *)
Definition uploadProducts (body : string + data.Products) : M Response :=
  match body with
  | inl message => ret (failure StatusBadRequest message)
  | inr products =>
      r <- db.UploadProducts Inventory products ;;
      let '(err, insertedRecord) := r in
      match err with
      | Some e => ret (failure StatusBadRequest (Error e))
      | None =>
          let message := (Sprintf_d insertedRecord ++ " product inserted")%string in
          ret (StatusOK, inr (mkResponseProduct message [] []))
      end
  end.

(** uploadInventory inserts given inventory/stock info to system; [body] as
    for uploadProducts. *)
Definition uploadInventory (body : string + data.Inventory) : M Response :=
  match body with
  | inl message => ret (failure StatusBadRequest message)
  | inr inventory =>
      r <- db.UploadInventory Inventory inventory ;;
      let '(err, insertedInventory) := r in
      match err with
      | Some e => ret (failure StatusBadRequest (Error e))
      | None =>
          let message := (Sprintf_d insertedInventory ++ " item inserted")%string in
          ret (StatusOK, inr (mkResponseProduct message [] []))
      end
  end.

(** sellProduct handles the sell product request; [productName] is the
    parameter of the route. *)
Definition sellProduct (productName : string) : M Response :=
  err <- db.SellProduct Inventory productName ;;
  match err with
  | Some e => ret (failure StatusBadRequest (Error e))
  | None =>
      let message :=
        ("Product " ++ productName
           ++ " is sold and inventory is updated accordingly")%string in
      ret (StatusOK, inr (mkResponseProduct message [] []))
  end.

End Server.

End api.

(** ** Notions the facts are stated with *)

(** The next [n] fallible store calls succeed. *)
Definition calm (n : nat) (w : World) : Prop :=
  forall i, i < n -> faults w (clock w + i) = None.

(** The world after [k] store calls that changed nothing. *)
Definition advance (k : nat) (w : World) : World :=
  mkWorld (persisted w) (view w) (status w) (k + clock w) (faults w) (journal w).

(** One insert of a batch: the statement, its arguments and its change. *)
Record Insert := mkInsert
  { ins_stmt : Statement; ins_args : list string; ins_change : DB -> DB }.

(** The shape both upload loops share: the inserts are executed in order, and
    the first that fails rolls the transaction back and ends the function. *)
Fixpoint execAll (l : list Insert) : M (option error) :=
  match l with
  | [] => ret None
  | x :: rest =>
      err <- ExecContext (ins_stmt x) (ins_args x) (ins_change x) ;;
      match err with
      | Some e => Rollback ;;; ret (Some e)
      | None => execAll rest
      end
  end.

Definition applyAll (l : list Insert) (db : DB) : DB :=
  fold_left (fun db x => ins_change x db) l db.

Definition callOf (x : Insert) : Call := CallExec (ins_stmt x) (ins_args x).

Section Batches.

Variable exec_insertProduct : string -> string -> string -> DB -> DB.
Variable exec_insertStock : string -> string -> string -> DB -> DB.

Definition stockInsert (r : data.Stock) : Insert :=
  mkInsert insertStock
    [data.Stock_ArtId r; data.Stock_Name r; data.Stock_Stock r]
    (exec_insertStock (data.Stock_ArtId r) (data.Stock_Name r) (data.Stock_Stock r)).

Definition containInsert (name : string) (c : data.ContainArticle) : Insert :=
  mkInsert insertProduct [name; data.ArtId c; data.AmountOf c]
    (exec_insertProduct name (data.ArtId c) (data.AmountOf c)).

(** The composition rows of a products batch, in the order of the loops. *)
Definition productInserts (products : list data.Product) : list Insert :=
  flat_map (fun p => map (containInsert (data.Name p)) (data.ContainArticles p))
    products.

(** The tables once every stock record of the batch is inserted. *)
Definition withInventory (records : list data.Stock) (db : DB) : DB :=
  fold_left
    (fun db r =>
       exec_insertStock (data.Stock_ArtId r) (data.Stock_Name r) (data.Stock_Stock r) db)
    records db.

(** The tables once every composition row of the batch is inserted. *)
Definition withProducts (products : list data.Product) (db : DB) : DB :=
  fold_left
    (fun db p =>
       fold_left
         (fun db c => exec_insertProduct (data.Name p) (data.ArtId c) (data.AmountOf c) db)
         (data.ContainArticles p) db)
    products db.

(** The number of composition rows of a products batch. *)
Definition compositionRows (products : list data.Product) : nat :=
  length (flat_map data.ContainArticles products).

End Batches.

(** The rows GetProductStock keeps: those ParseInt values other than zero,
    each with its text as scanned. *)
Definition available (rows : list (string * string)) : data.ProductStocks :=
  map (fun row => data.mkProductStock (fst row) (snd row))
    (filter (fun row => negb (fst (strconv.ParseInt (snd row)) =? 0)%Z) rows).

(** The filter in the words of the specification: a row is kept when its
    text parses, and to a value other than zero; a text that fails to parse
    counts as zero. *)
Definition availableBySpec (rows : list (string * string)) : data.ProductStocks :=
  map (fun row => data.mkProductStock (fst row) (snd row))
    (filter (fun row =>
               match strconv.ParseInt (snd row) with
               | (value, None) => negb (value =? 0)%Z
               | (_, Some _) => false
               end) rows).

(** The shape GetInventory and GetProductStock share: one query in a
    transaction that is always rolled back, its rows gathered by [body]. *)
Definition readRows {T A} (stmt : Statement) (sel : DB -> list T)
    (body : T -> list A -> M (flow (list A) (option error * list A)))
    : M (option error * list A) :=
  err <- BeginTx ;;
  match err with
  | Some e => ret (Some e, [])
  | None =>
      defer Rollback
        (q <- Query stmt [] sel ;;
         match q with
         | Err e => ret (Some e, [])
         | Ok rows =>
             r <- forRows rows (fun e => (Some e, [])) body [] ;;
             match r with
             | Return v => ret v
             | Continue (stocks, rowsErr) =>
                 match rowsErr with
                 | Some e => ret (Some e, [])
                 | None => ret (None, stocks)
                 end
             end
         end)
  end.

(** The stock records GetInventory makes of the rows it scans. *)
Definition stocksOf (rows : list (string * string * string)) : list data.Stock :=
  map (fun row => data.mkStock (fst (fst row)) (snd (fst row)) (snd row)) rows.

Section SellingInParts.

Variable rows_inStock : string -> DB -> list Z.
Variable exec_updateSaleInfo : string -> DB -> DB.

(** The end of SellProduct: the update and the commit. *)
Definition sellUpdate (productName : string) : M (option error) :=
  err <- ExecContext updateSaleInfo [productName]
           (exec_updateSaleInfo productName) ;;
  match err with
  | Some e => Rollback ;;; ret (Some e)
  | None =>
      err <- Commit ;;
      match err with
      | Some e => Rollback ;;; ret (Some e)
      | None => ret None
      end
  end.

(** SellProduct from its second query on, [err] being the variable of that
    name. *)
Definition sellStockCheck (productName : string) (err : option error)
    : M (option error) :=
  q <- Query inStock [productName] (rows_inStock productName) ;;
  match q with
  | Err errQuery => ret err
  | Ok rows =>
      r <- forRows rows (fun e => Some e)
             (blockOn (fun stockNo => negb (stockNo =? 0))%Z OutOfStockError) err ;;
      match r with
      | Return v => ret v
      | Continue (err, _) => sellUpdate productName
      end
  end.

End SellingInParts.

(** The object the sellProduct handler sends for a sale. *)
Definition soldMessage (productName : string) : api.ResponseProduct :=
  api.mkResponseProduct
    ("Product " ++ productName ++ " is sold and inventory is updated accordingly")
    [] [].

(** ** A store to run the engine on *)

Module SpecStore.

Definition quantity (text : string) : Z := fst (strconv.ParseInt text).

Definition decimal (z : Z) : string := NilZero.string_of_int (Z.to_int z).

Definition stockOf (art : string) (db : DB) : Z :=
  match find (fun a => String.eqb (data.Stock_ArtId a) art) (articles db) with
  | Some a => quantity (data.Stock_Stock a)
  | None => 0%Z
  end.

Definition compositionOf (name : string) (db : DB) : list Composition :=
  filter (fun c => String.eqb (comp_product c) name) (compositions db).

(** Modelled from the spec: the statement product-exists(name), whose SQL
    text is missing; it returns a count of the rows registered for the
    product. *)
Definition rows_productExist (name : string) (db : DB) : list Z :=
  [len (compositionOf name db)].

(** Modelled from the spec: the statement product-in-stock(name), whose SQL
    text is missing; it returns a flag that is non-zero when the backing
    stock is depleted, here the number of articles of the composition with
    less stock than the product requires. *)
Definition rows_inStock (name : string) (db : DB) : list Z :=
  [len (filter (fun c => (stockOf (comp_article c) db <? quantity (comp_amount c))%Z)
          (compositionOf name db))].

Definition required (name art : string) (db : DB) : Z :=
  fold_right Z.add 0%Z
    (map (fun c => quantity (comp_amount c))
       (filter (fun c => String.eqb (comp_article c) art) (compositionOf name db))).

(** Modelled from the spec: the statement decrement-stock-for-product(name),
    whose SQL text is missing; it decrements every article in the product's
    composition by its required amount. *)
Definition exec_updateSaleInfo (name : string) (db : DB) : DB :=
  mkDB
    (map (fun a =>
            data.mkStock (data.Stock_ArtId a) (data.Stock_Name a)
              (decimal (quantity (data.Stock_Stock a)
                        - required name (data.Stock_ArtId a) db)))
       (articles db))
    (compositions db).

(** Modelled from the spec: the statement insert-composition(product,
    article, amount), whose SQL text is missing; it appends one composition
    row. *)
Definition exec_insertProduct (name art amount : string) (db : DB) : DB :=
  mkDB (articles db) (compositions db ++ [mkComposition name art amount]).

(** Modelled from the spec: the statement insert-stock(article, name,
    quantity), whose SQL text is missing; it appends one stock row. *)
Definition exec_insertStock (art name qty : string) (db : DB) : DB :=
  mkDB (articles db ++ [data.mkStock art name qty]) (compositions db).

(** A store that answers a fixed list of availability rows. *)
Definition rows_fixed (rows : list (string * string)) (_ : DB)
    : list (string * string) := rows.

Definition empty : DB := mkDB [] [].

(** The tables of the example of the specification: a table made of two legs
    and one top, five legs and three tops on hand. *)
Definition furnished : DB :=
  mkDB [data.mkStock "A1" "leg" "5"; data.mkStock "A2" "top" "3"]
       [mkComposition "table" "A1" "2"; mkComposition "table" "A2" "1"].

(** The same with a single leg left. *)
Definition depleted : DB :=
  mkDB [data.mkStock "A1" "leg" "1"; data.mkStock "A2" "top" "3"]
       [mkComposition "table" "A1" "2"; mkComposition "table" "A2" "1"].

(** A connection failure. *)
Definition reset : error := StoreError "connection reset".

(** One table: a batch of one product with two composition entries. *)
Definition tableBatch : data.Products :=
  data.mkProducts
    [data.mkProduct "table"
       [data.mkContainArticle "A1" "2"; data.mkContainArticle "A2" "1"]].

(** Legs and tops: a batch of two stock records. *)
Definition stockBatch : data.Inventory :=
  data.mkInventory [data.mkStock "A1" "leg" "5"; data.mkStock "A2" "top" "3"].

Definition never : nat -> option error := fun _ => None.

Definition failing (at_call : nat) (e : error) : nat -> option error :=
  fun i => if Nat.eqb i at_call then Some e else None.

Definition idle (db : DB) (faults : nat -> option error) : World :=
  mkWorld db db NoTx 0 faults [].

Definition SellProduct :=
  SellProduct rows_productExist rows_inStock exec_updateSaleInfo.
Definition UploadProducts := UploadProducts exec_insertProduct.
Definition UploadInventory := UploadInventory exec_insertStock.

End SpecStore.

Module SpecServer.

(** Modelled from the spec: the statement list-stock, whose SQL text is
    missing; it returns all (article id, name, quantity) rows. *)
Definition rows_getInventory (db : DB) : list (string * string * string) :=
  map (fun a => (data.Stock_ArtId a, data.Stock_Name a, data.Stock_Stock a))
    (articles db).

(** The query set of the example store; the availability rows are given,
    and list-stock is journalled under the tag of the other listing. *)
Definition queries (availability : list (string * string)) : QuerySet :=
  mkQuerySet getProductStock rows_getInventory (SpecStore.rows_fixed availability)
    SpecStore.rows_productExist SpecStore.rows_inStock SpecStore.exec_updateSaleInfo
    SpecStore.exec_insertProduct SpecStore.exec_insertStock.

(** The server on the example store. *)
Definition inventory (availability : list (string * string)) : db.Inventory :=
  PInventoryDB (queries availability).

End SpecServer.

(** ** Facts about the store calls *)

Lemma bind_of {A B} (m : M A) (k : A -> M B) w w1 a :
  m w = (w1, a) -> bind m k w = k a w1.
Proof. intros H. unfold bind. rewrite H. reflexivity. Qed.
Arguments bind_of {A B m k w w1 a} _.

Lemma bind_assoc {A B C} (m : M A) (k : A -> M B) (k2 : B -> M C) w :
  bind (bind m k) k2 w = bind m (fun a => bind (k a) k2) w.
Proof. unfold bind. destruct (m w) as [w1 a]. reflexivity. Qed.

Lemma bind_ret {A B} (a : A) (k : A -> M B) w : bind (ret a) k w = k a w.
Proof. reflexivity. Qed.

Lemma calm_now {n w} : calm (S n) w -> faults w (clock w) = None.
Proof.
  intros H. specialize (H 0). rewrite Nat.add_0_r in H. apply H. lia.
Qed.

Lemma calm_shift k n w w1 :
  calm (k + n) w -> faults w1 = faults w -> clock w1 = k + clock w -> calm n w1.
Proof.
  intros H Hf Hc i Hi. rewrite Hf, Hc.
  replace (k + clock w + i) with (clock w + (k + i)) by lia.
  apply H. lia.
Qed.

Lemma calm_less m n w : m <= n -> calm n w -> calm m w.
Proof. intros Hle H i Hi. apply H. lia. Qed.

Lemma advance_advance a b w : advance a (advance b w) = advance (a + b) w.
Proof. unfold advance; cbn. f_equal. lia. Qed.

Lemma BeginTx_ok w :
  faults w (clock w) = None ->
  BeginTx w =
  (mkWorld (persisted w) (persisted w) Active (S (clock w)) (faults w)
     (journal w ++ [CallBeginTx]), None).
Proof.
  intros H. unfold BeginTx, bind, note, tick, get, setTx, ret; cbn.
  rewrite H. reflexivity.
Qed.

Lemma BeginTx_fail w e :
  faults w (clock w) = Some e ->
  BeginTx w =
  (mkWorld (persisted w) (persisted w) NoTx (S (clock w)) (faults w)
     (journal w ++ [CallBeginTx]), Some e).
Proof.
  intros H. unfold BeginTx, bind, note, tick, get, setTx, ret; cbn.
  rewrite H. reflexivity.
Qed.

Lemma Query_ok {T} stmt args (rows : DB -> list T) w :
  faults w (clock w) = None ->
  Query stmt args rows w =
  (mkWorld (persisted w) (view w) (status w) (S (clock w)) (faults w)
     (journal w ++ [CallQuery stmt args]), Ok (rows (view w))).
Proof.
  intros H. unfold Query, bind, note, tick, get, ret; cbn.
  rewrite H. reflexivity.
Qed.

Lemma Query_fail {T} stmt args (rows : DB -> list T) w e :
  faults w (clock w) = Some e ->
  Query stmt args rows w =
  (mkWorld (persisted w) (view w) (status w) (S (clock w)) (faults w)
     (journal w ++ [CallQuery stmt args]), Err e).
Proof.
  intros H. unfold Query, bind, note, tick, get, ret; cbn.
  rewrite H. reflexivity.
Qed.

Lemma ExecContext_ok stmt args change w :
  faults w (clock w) = None ->
  ExecContext stmt args change w =
  (mkWorld (persisted w) (change (view w)) (status w) (S (clock w)) (faults w)
     (journal w ++ [CallExec stmt args]), None).
Proof.
  intros H. unfold ExecContext, bind, note, tick, get, setTx, ret; cbn.
  rewrite H. reflexivity.
Qed.

Lemma ExecContext_fail stmt args change w e :
  faults w (clock w) = Some e ->
  ExecContext stmt args change w =
  (mkWorld (persisted w) (view w) (status w) (S (clock w)) (faults w)
     (journal w ++ [CallExec stmt args]), Some e).
Proof.
  intros H. unfold ExecContext, bind, note, tick, get, setTx, ret; cbn.
  rewrite H. reflexivity.
Qed.

Lemma Commit_ok w :
  faults w (clock w) = None ->
  Commit w =
  (mkWorld (view w) (view w) Committed (S (clock w)) (faults w)
     (journal w ++ [CallCommit]), None).
Proof.
  intros H. unfold Commit, bind, note, tick, publish, ret; cbn.
  rewrite H. reflexivity.
Qed.

Lemma Commit_fail w e :
  faults w (clock w) = Some e ->
  Commit w =
  (mkWorld (persisted w) (persisted w) CommitFailed (S (clock w)) (faults w)
     (journal w ++ [CallCommit]), Some e).
Proof.
  intros H. unfold Commit, bind, note, tick, get, setTx, ret; cbn.
  rewrite H. reflexivity.
Qed.

Lemma Rollback_active w :
  status w = Active ->
  Rollback w =
  (mkWorld (persisted w) (persisted w) RolledBack (clock w) (faults w)
     (journal w ++ [CallRollback]), tt).
Proof.
  intros H. unfold Rollback, bind, get, note, setTx; cbn.
  rewrite H. reflexivity.
Qed.

Lemma Rollback_done w :
  status w <> Active -> Rollback w = (w, tt).
Proof.
  intros H. unfold Rollback, bind, get, ret; cbn.
  destruct (status w); try reflexivity. contradiction.
Qed.

(** Running the next store call of a chain of binds, given that it succeeds
    ([run_ok]) or fails ([run_fail]). *)
Ltac flatten :=
  repeat (rewrite bind_assoc || rewrite bind_ret); cbv beta iota;
  try unfold advance; cbn [persisted view status clock faults journal].

Ltac run_ok Hf :=
  flatten;
  lazymatch goal with
  | |- context [bind BeginTx ?k ?w1] =>
      rewrite (@bind_of _ _ BeginTx k w1 _ _ (BeginTx_ok w1 Hf))
  | |- context [bind (Query ?s ?a ?r) ?k ?w1] =>
      rewrite (@bind_of _ _ (Query s a r) k w1 _ _ (Query_ok s a r w1 Hf))
  | |- context [bind (ExecContext ?s ?a ?c) ?k ?w1] =>
      rewrite (@bind_of _ _ (ExecContext s a c) k w1 _ _ (ExecContext_ok s a c w1 Hf))
  | |- context [bind Commit ?k ?w1] =>
      rewrite (@bind_of _ _ Commit k w1 _ _ (Commit_ok w1 Hf))
  end;
  cbn [persisted view status clock faults journal]; flatten.

Ltac run_fail Hf :=
  flatten;
  lazymatch goal with
  | |- context [bind BeginTx ?k ?w1] =>
      rewrite (@bind_of _ _ BeginTx k w1 _ _ (BeginTx_fail w1 _ Hf))
  | |- context [bind (Query ?s ?a ?r) ?k ?w1] =>
      rewrite (@bind_of _ _ (Query s a r) k w1 _ _ (Query_fail s a r w1 _ Hf))
  | |- context [bind (ExecContext ?s ?a ?c) ?k ?w1] =>
      rewrite (@bind_of _ _ (ExecContext s a c) k w1 _ _ (ExecContext_fail s a c w1 _ Hf))
  | |- context [bind Commit ?k ?w1] =>
      rewrite (@bind_of _ _ Commit k w1 _ _ (Commit_fail w1 _ Hf))
  end;
  cbn [persisted view status clock faults journal]; flatten.

Ltac run_rollback :=
  flatten;
  lazymatch goal with
  | |- context [bind Rollback ?k ?w1] =>
      first
        [ rewrite (@bind_of _ _ Rollback k w1 _ _
                     (Rollback_active w1 ltac:(first [reflexivity | cbn; eassumption])))
        | rewrite (@bind_of _ _ Rollback k w1 _ _
                     (Rollback_done w1 ltac:(cbn; discriminate))) ]
  end;
  cbn [persisted view status clock faults journal]; flatten.

(** ** Facts about the scanning loops *)

Lemma forRows_nil {T St R} (onScanErr : error -> R)
    (body : T -> St -> M (flow St R)) s w :
  forRows [] onScanErr body s w = (advance 1 w, Continue (s, faults w (clock w))).
Proof.
  cbn [forRows]. unfold bind, tick, ret, advance; cbn.
  destruct (faults w (clock w)); reflexivity.
Qed.

Lemma forRows_cons {T St R} x rest (onScanErr : error -> R)
    (body : T -> St -> M (flow St R)) s w :
  forRows (x :: rest) onScanErr body s w =
  match faults w (clock w) with
  | Some e => (advance 1 w, Continue (s, Some e))
  | None =>
      match faults w (S (clock w)) with
      | Some e => (advance 2 w, Return (onScanErr e))
      | None =>
          let '(w1, r) := body x s (advance 2 w) in
          match r with
          | Continue s1 => forRows rest onScanErr body s1 w1
          | Return v => (w1, Return v)
          end
      end
  end.
Proof.
  cbn [forRows]. unfold bind at 1, tick at 1.
  destruct (faults w (clock w)); [reflexivity|].
  unfold bind at 1, tick at 1. cbn [faults clock].
  destruct (faults w (S (clock w))); [reflexivity|].
  unfold bind at 1. cbn [persisted view status faults clock journal].
  match goal with
  | |- context [body x s ?w2] => change w2 with (advance 2 w)
  end.
  destruct (body x s (advance 2 w)) as [w1 [s1|v]]; reflexivity.
Qed.

Section Scanning.

Variable blocks : Z -> bool.
Variable refusal : error.

(** The loop steps only the clock, whatever the store does. *)
Lemma forRows_frame rows s w :
  exists k, fst (forRows rows (fun e => Some e) (blockOn blocks refusal) s w)
            = advance k w.
Proof.
  revert s w. induction rows as [|x rest IH]; intros s w.
  - rewrite forRows_nil. exists 1. reflexivity.
  - rewrite forRows_cons.
    destruct (faults w (clock w)); [exists 1; reflexivity|].
    destruct (faults w (S (clock w))); [exists 2; reflexivity|].
    unfold blockOn. destruct (blocks x); unfold ret; [exists 2; reflexivity|].
    destruct (IH None (advance 2 w)) as [k Hk].
    exists (k + 2). rewrite <- advance_advance. exact Hk.
Qed.

Lemma calm_second {n w} : calm (S (S n)) w -> faults w (S (clock w)) = None.
Proof.
  intros H. replace (S (clock w)) with (clock w + 1) by lia. apply H. lia.
Qed.

(** No row blocks: the loop falls through after reading every row. *)
Lemma forRows_pass rows s w :
  Forall (fun flag => blocks flag = false) rows ->
  calm (2 * length rows + 1) w ->
  forRows rows (fun e => Some e) (blockOn blocks refusal) s w =
  (advance (2 * length rows + 1) w,
   Continue (match rows with [] => s | _ => None end, None)).
Proof.
  revert s w. induction rows as [|x rest IH]; intros s w Hall Hcalm.
  - rewrite forRows_nil. rewrite (calm_now Hcalm). reflexivity.
  - inversion Hall as [|? ? Hx Hrest]; subst.
    replace (2 * length (x :: rest) + 1) with (S (S (2 * length rest + 1))) in *
      by (cbn [length]; lia).
    rewrite forRows_cons, (calm_now Hcalm), (calm_second Hcalm).
    unfold blockOn at 1. rewrite Hx. unfold ret at 1.
    rewrite IH; [|exact Hrest|].
    + rewrite advance_advance. f_equal.
      * f_equal. lia.
      * destruct rest; reflexivity.
    + apply calm_shift with (k := 2) (w := w); [exact Hcalm|reflexivity|reflexivity].
Qed.

(** Some row blocks: the function returns the refusal from inside the loop. *)
Lemma forRows_block rows s w :
  Exists (fun flag => blocks flag = true) rows ->
  calm (2 * length rows) w ->
  exists k,
    forRows rows (fun e => Some e) (blockOn blocks refusal) s w =
    (advance k w, Return (Some refusal)).
Proof.
  revert s w. induction rows as [|x rest IH]; intros s w Hex Hcalm.
  - inversion Hex.
  - replace (2 * length (x :: rest)) with (S (S (2 * length rest))) in *
      by (cbn [length]; lia).
    rewrite forRows_cons, (calm_now Hcalm), (calm_second Hcalm).
    unfold blockOn at 1.
    destruct (blocks x) eqn:Hx; unfold ret at 1.
    + exists 2. reflexivity.
    + assert (Hrest : Exists (fun flag => blocks flag = true) rest).
      { inversion Hex; subst; [congruence|assumption]. }
      destruct (IH None (advance 2 w) Hrest) as [k Hk].
      { apply calm_shift with (k := 2) (w := w); [exact Hcalm|reflexivity|reflexivity]. }
      exists (k + 2). rewrite Hk.
      rewrite advance_advance. reflexivity.
Qed.

End Scanning.

(** ** SellProduct *)

Section Selling.

Variable rows_productExist : string -> DB -> list Z.
Variable rows_inStock : string -> DB -> list Z.
Variable exec_updateSaleInfo : string -> DB -> DB.

Local Abbreviation sell :=
  (SellProduct rows_productExist rows_inStock exec_updateSaleInfo).

(** C2: when the product-exists flag of the product is zero (and the store
    calls up to the reading of that flag succeed), SellProduct returns
    ProductNotFoundError, the transaction is rolled back, the only calls
    issued are BeginTx, the product-exists query and Rollback (so no
    decrement is attempted), and the persisted tables, article stock
    included, are unchanged. *)
Theorem SellProduct_not_found (productName : string) (w : World) :
  Exists (fun flag => flag = 0%Z) (rows_productExist productName (persisted w)) ->
  calm (2 + 2 * length (rows_productExist productName (persisted w))) w ->
  snd (sell productName w) = Some ProductNotFoundError /\
  status (fst (sell productName w)) = RolledBack /\
  journal (fst (sell productName w)) =
    journal w ++ [CallBeginTx; CallQuery productExist [productName]; CallRollback] /\
  persisted (fst (sell productName w)) = persisted w /\
  articles (persisted (fst (sell productName w))) = articles (persisted w).
Proof.
  intros Hzero Hcalm. unfold SellProduct.
  run_ok (calm_now Hcalm). unfold defer.
  run_ok (calm_second Hcalm).
  match goal with
  | |- context [bind (forRows ?rows ?f ?b ?s) _ ?w2] =>
      destruct (@forRows_block (fun flag => (flag =? 0)%Z) ProductNotFoundError
                  rows s w2) as [k Hk]
  end.
  - eapply Exists_impl; [|exact Hzero]. intros a Ha. cbv beta in *. subst.
    reflexivity.
  - apply calm_shift with (k := 2) (w := w); [exact Hcalm|reflexivity|reflexivity].
  - rewrite (bind_of Hk). run_rollback.
    cbn. repeat rewrite <- app_assoc. repeat split; reflexivity.
Qed.

(** C1: when the product exists (no product-exists flag is zero) and its
    product-in-stock flag is non-zero (and the store calls up to the
    reading of that flag succeed), SellProduct returns OutOfStockError, the
    transaction is rolled back after the two queries with no update
    issued, and the persisted tables, article stock included, are
    unchanged. *)
Theorem SellProduct_out_of_stock (productName : string) (w : World) :
  Forall (fun flag => flag <> 0%Z) (rows_productExist productName (persisted w)) ->
  Exists (fun flag => flag <> 0%Z) (rows_inStock productName (persisted w)) ->
  calm (4 + 2 * length (rows_productExist productName (persisted w))
          + 2 * length (rows_inStock productName (persisted w))) w ->
  snd (sell productName w) = Some OutOfStockError /\
  status (fst (sell productName w)) = RolledBack /\
  journal (fst (sell productName w)) =
    journal w ++ [CallBeginTx; CallQuery productExist [productName];
                  CallQuery inStock [productName]; CallRollback] /\
  persisted (fst (sell productName w)) = persisted w /\
  articles (persisted (fst (sell productName w))) = articles (persisted w).
Proof.
  intros Hexists Hflag Hcalm. unfold SellProduct.
  set (E := rows_productExist productName (persisted w)) in *.
  set (K := rows_inStock productName (persisted w)) in *.
  run_ok (calm_now Hcalm). unfold defer.
  run_ok (calm_second Hcalm). fold E.
  match goal with
  | |- context [bind (forRows E ?f ?b ?s) _ ?w2] =>
      assert (Hc2 : calm ((2 * length E + 1) + (1 + 2 * length K)) w2)
        by (apply calm_shift with (k := 2) (w := w);
            [eapply calm_less; [|exact Hcalm]; lia|reflexivity|reflexivity]);
      rewrite (bind_of (@forRows_pass (fun flag => (flag =? 0)%Z)
                          ProductNotFoundError E s w2
                          ltac:(eapply Forall_impl; [|exact Hexists];
                                cbv beta; intros a Ha; apply Z.eqb_neq; exact Ha)
                          (@calm_less (2 * length E + 1) _ w2 (Nat.le_add_r _ _) Hc2)));
      assert (Hc3 : calm (1 + 2 * length K) (advance (2 * length E + 1) w2))
        by (apply calm_shift with (k := 2 * length E + 1) (w := w2);
            [exact Hc2|reflexivity|reflexivity])
  end.
  flatten. run_ok (calm_now Hc3). fold K.
  match goal with
  | |- context [bind (forRows K ?f ?b ?s) _ ?w4] =>
      destruct (@forRows_block (fun flag => negb (flag =? 0)%Z) OutOfStockError
                  K s w4) as [k Hk]
  end.
  - eapply Exists_impl; [|exact Hflag]. cbv beta. intros a Ha.
    apply negb_true_iff, Z.eqb_neq. exact Ha.
  - eapply calm_shift with (k := 1); [exact Hc3|reflexivity|reflexivity].
  - rewrite (bind_of Hk). run_rollback.
    cbn. repeat rewrite <- app_assoc. repeat split; reflexivity.
Qed.

(** When the product-exists query fails, the function returns the variable
    [err], which holds nil: the caller is told the sale succeeded. *)
Lemma SellProduct_exist_query_fails (productName : string) (w : World) e :
  faults w (clock w) = None ->
  faults w (S (clock w)) = Some e ->
  snd (sell productName w) = None /\
  status (fst (sell productName w)) = RolledBack /\
  persisted (fst (sell productName w)) = persisted w.
Proof.
  intros H0 H1. unfold SellProduct.
  run_ok H0. unfold defer. run_fail H1. run_rollback.
  cbn. repeat split; reflexivity.
Qed.

(** The same when the product-in-stock query fails. *)
Lemma SellProduct_stock_query_fails (productName : string) (w : World) e :
  Forall (fun flag => flag <> 0%Z) (rows_productExist productName (persisted w)) ->
  calm (3 + 2 * length (rows_productExist productName (persisted w))) w ->
  faults w (clock w + (3 + 2 * length (rows_productExist productName (persisted w))))
    = Some e ->
  snd (sell productName w) = None /\
  status (fst (sell productName w)) = RolledBack /\
  persisted (fst (sell productName w)) = persisted w.
Proof.
  intros Hexists Hcalm Hfail. unfold SellProduct.
  set (E := rows_productExist productName (persisted w)) in *.
  run_ok (calm_now Hcalm). unfold defer.
  run_ok (calm_second Hcalm). fold E.
  match goal with
  | |- context [bind (forRows E ?f ?b ?s) _ ?w2] =>
      assert (Hc2 : calm (2 * length E + 1) w2)
        by (apply calm_shift with (k := 2) (w := w);
            [eapply calm_less; [|exact Hcalm]; lia|reflexivity|reflexivity]);
      rewrite (bind_of (@forRows_pass (fun flag => (flag =? 0)%Z)
                          ProductNotFoundError E s w2
                          ltac:(eapply Forall_impl; [|exact Hexists];
                                cbv beta; intros a Ha; apply Z.eqb_neq; exact Ha)
                          Hc2))
  end.
  flatten.
  assert (Hf : faults w (2 * length E + 1 + S (S (clock w))) = Some e)
    by (rewrite <- Hfail; f_equal; lia).
  run_fail Hf. run_rollback.
  destruct E; cbn; repeat split; reflexivity.
Qed.

(** What SellProduct leaves persisted is either what it found or what the
    update statement makes of it, the latter only on a committed run that
    returns nil. *)
Lemma SellProduct_persists_all_or_nothing (productName : string) (w : World) :
  persisted (fst (sell productName w)) = persisted w \/
  (persisted (fst (sell productName w)) = exec_updateSaleInfo productName (persisted w) /\
   status (fst (sell productName w)) = Committed /\
   snd (sell productName w) = None).
Proof.
  unfold SellProduct.
  destruct (faults w (clock w)) eqn:F0; [run_fail F0; left; reflexivity|].
  run_ok F0. unfold defer.
  destruct (faults w (S (clock w))) eqn:F1;
    [run_fail F1; run_rollback; left; reflexivity|].
  run_ok F1.
  match goal with
  | |- context [bind (forRows ?rows ?f ?b ?s) _ ?w2] =>
      destruct (@forRows_frame (fun flag => (flag =? 0)%Z) ProductNotFoundError
                  rows s w2) as [k1 Hk1];
      destruct (forRows rows f b s w2) as [w3 r] eqn:E1
  end.
  cbn [fst] in Hk1. subst w3. rewrite (bind_of E1).
  destruct r as [[err lasterr]|v]; [|run_rollback; left; reflexivity].
  flatten.
  match goal with
  | |- context [bind (Query _ _ _) _ ?w3] =>
      destruct (faults w3 (clock w3)) eqn:F2;
        [run_fail F2; run_rollback; left; reflexivity|run_ok F2]
  end.
  match goal with
  | |- context [bind (forRows ?rows ?f ?b ?s) _ ?w4] =>
      destruct (@forRows_frame (fun flag => negb (flag =? 0)%Z) OutOfStockError
                  rows s w4) as [k2 Hk2];
      destruct (forRows rows f b s w4) as [w5 r] eqn:E2
  end.
  cbn [fst] in Hk2. subst w5. rewrite (bind_of E2).
  destruct r as [[err2 lasterr2]|v]; [|run_rollback; left; reflexivity].
  flatten.
  match goal with
  | |- context [bind (ExecContext _ _ _) _ ?w5] =>
      destruct (faults w5 (clock w5)) eqn:F3;
        [run_fail F3; run_rollback; run_rollback; left; reflexivity|run_ok F3]
  end.
  match goal with
  | |- context [bind Commit _ ?w6] =>
      destruct (faults w6 (clock w6)) eqn:F4;
        [run_fail F4; run_rollback; run_rollback; left; reflexivity|run_ok F4]
  end.
  run_rollback. right. cbn. repeat split; reflexivity.
Qed.

End Selling.

(** ** The insert loops of the uploads *)

Lemma execAll_app l1 l2 w :
  execAll (l1 ++ l2) w =
  bind (execAll l1)
    (fun err => match err with Some e => ret (Some e) | None => execAll l2 end) w.
Proof.
  revert w. induction l1 as [|x rest IH]; intros w; [reflexivity|].
  cbn [app execAll]. rewrite bind_assoc. unfold bind at 1 3.
  destruct (ExecContext _ _ _ w) as [w1 [e|]].
  - rewrite bind_assoc. unfold bind. destruct (Rollback w1). reflexivity.
  - apply IH.
Qed.

(** Every insert succeeds: the view holds all of them, nothing else moved. *)
Lemma execAll_ok l w :
  calm (length l) w ->
  execAll l w =
  (mkWorld (persisted w) (applyAll l (view w)) (status w) (length l + clock w)
     (faults w) (journal w ++ map callOf l), None).
Proof.
  revert w. induction l as [|x rest IH]; intros w Hcalm.
  - cbn. unfold ret. rewrite app_nil_r. destruct w; reflexivity.
  - cbn [execAll length] in *. run_ok (calm_now Hcalm).
    rewrite IH by (apply calm_shift with (k := 1) (w := w);
                   [exact Hcalm|reflexivity|reflexivity]).
    cbn. rewrite <- app_assoc. f_equal. f_equal. lia.
Qed.

(** The insert number [k] (from 0) is the first to fail: the function ends
    there with that error and the transaction rolled back. *)
Lemma execAll_fail l k w e :
  k < length l ->
  calm k w ->
  faults w (clock w + k) = Some e ->
  status w = Active ->
  snd (execAll l w) = Some e /\
  status (fst (execAll l w)) = RolledBack /\
  persisted (fst (execAll l w)) = persisted w.
Proof.
  revert k w. induction l as [|x rest IH]; intros k w Hk Hcalm Hfail Hactive.
  - inversion Hk.
  - cbn [execAll]. destruct k as [|k].
    + rewrite Nat.add_0_r in Hfail. run_fail Hfail. run_rollback.
      cbn. repeat split; reflexivity.
    + run_ok (calm_now Hcalm).
      match goal with
      | |- context [execAll rest ?w1] =>
          destruct (IH k w1) as (H1 & H2 & H3);
            [cbn [length] in Hk; lia
            |apply calm_shift with (k := 1) (w := w);
               [exact Hcalm|reflexivity|reflexivity]
            |cbn; rewrite <- Hfail; f_equal; lia
            |exact Hactive
            |rewrite H1, H2, H3; repeat split; reflexivity]
      end.
Qed.

(** Whatever the store does, the loop persists nothing, and it leaves the
    transaction active with every insert in its view, or rolled back. *)
Lemma execAll_cases l w :
  status w = Active ->
  persisted (fst (execAll l w)) = persisted w /\
  match snd (execAll l w) with
  | None => status (fst (execAll l w)) = Active /\
            view (fst (execAll l w)) = applyAll l (view w)
  | Some _ => status (fst (execAll l w)) = RolledBack
  end.
Proof.
  revert w. induction l as [|x rest IH]; intros w Hactive.
  - cbn. auto.
  - cbn [execAll]. destruct (faults w (clock w)) eqn:F.
    + run_fail F. run_rollback. cbn. auto.
    + run_ok F.
      match goal with
      | |- context [execAll rest ?w1] => destruct (IH w1 Hactive) as [H1 H2]
      end.
      split; [exact H1|exact H2].
Qed.

Section Uploading.

Variable exec_insertProduct : string -> string -> string -> DB -> DB.
Variable exec_insertStock : string -> string -> string -> DB -> DB.

Lemma insertStocks_execAll records w :
  insertStocks exec_insertStock records w = execAll (map (stockInsert exec_insertStock) records) w.
Proof.
  revert w. induction records as [|r rest IH]; intros w; [reflexivity|].
  cbn [insertStocks map execAll stockInsert ins_stmt ins_args ins_change].
  unfold bind at 1 3. destruct (ExecContext _ _ _ w) as [w1 [e|]];
    [reflexivity|apply IH].
Qed.

Lemma insertContains_execAll name contains w :
  insertContains exec_insertProduct name contains w =
  execAll (map (containInsert exec_insertProduct name) contains) w.
Proof.
  revert w. induction contains as [|c rest IH]; intros w; [reflexivity|].
  cbn [insertContains map execAll containInsert ins_stmt ins_args ins_change].
  unfold bind at 1 3. destruct (ExecContext _ _ _ w) as [w1 [e|]];
    [reflexivity|apply IH].
Qed.

Lemma insertProducts_execAll products w :
  insertProducts exec_insertProduct products w = execAll (productInserts exec_insertProduct products) w.
Proof.
  revert w. induction products as [|p rest IH]; intros w; [reflexivity|].
  cbn [insertProducts productInserts flat_map]. rewrite execAll_app.
  unfold bind. rewrite insertContains_execAll.
  destruct (execAll _ w) as [w1 [e|]]; [reflexivity|apply IH].
Qed.

Lemma applyAll_stockInsert records db :
  applyAll (map (stockInsert exec_insertStock) records) db = withInventory exec_insertStock records db.
Proof.
  revert db. induction records as [|r rest IH]; intros db; [reflexivity|].
  apply IH.
Qed.

Lemma applyAll_app l1 l2 db : applyAll (l1 ++ l2) db = applyAll l2 (applyAll l1 db).
Proof. apply fold_left_app. Qed.

Lemma applyAll_containInsert name contains db :
  applyAll (map (containInsert exec_insertProduct name) contains) db =
  fold_left
    (fun db c => exec_insertProduct name (data.ArtId c) (data.AmountOf c) db)
    contains db.
Proof.
  revert db. induction contains as [|c rest IH]; intros db; [reflexivity|].
  apply IH.
Qed.

Lemma applyAll_productInserts products db :
  applyAll (productInserts exec_insertProduct products) db = withProducts exec_insertProduct products db.
Proof.
  revert db. induction products as [|p rest IH]; intros db; [reflexivity|].
  cbn [productInserts flat_map]. rewrite applyAll_app, applyAll_containInsert.
  apply IH.
Qed.

Lemma length_productInserts products :
  length (productInserts exec_insertProduct products) = compositionRows products.
Proof.
  unfold compositionRows, productInserts.
  induction products as [|p rest IH]; [reflexivity|].
  cbn [flat_map]. rewrite !length_app, length_map, IH. reflexivity.
Qed.

Lemma bind_insertStocks {B} records (k : option error -> M B) w :
  bind (insertStocks exec_insertStock records) k w =
  bind (execAll (map (stockInsert exec_insertStock) records)) k w.
Proof. unfold bind. rewrite insertStocks_execAll. reflexivity. Qed.

Lemma bind_insertProducts {B} products (k : option error -> M B) w :
  bind (insertProducts exec_insertProduct products) k w =
  bind (execAll (productInserts exec_insertProduct products)) k w.
Proof. unfold bind. rewrite insertProducts_execAll. reflexivity. Qed.

Local Abbreviation uploadInventory := (UploadInventory exec_insertStock).
Local Abbreviation uploadProducts := (UploadProducts exec_insertProduct).

Lemma UploadInventory_commits inventoryToInsert w :
  status (fst (uploadInventory inventoryToInsert w)) = Committed ->
  snd (uploadInventory inventoryToInsert w)
    = (None, len (data.Inventory_ inventoryToInsert)) /\
  persisted (fst (uploadInventory inventoryToInsert w))
    = withInventory exec_insertStock (data.Inventory_ inventoryToInsert) (persisted w).
Proof.
  unfold UploadInventory.
  destruct (faults w (clock w)) eqn:F0; [run_fail F0; cbn; discriminate|].
  run_ok F0. rewrite bind_insertStocks.
  match goal with
  | |- context [bind (execAll ?l) _ ?w1] =>
      destruct (execAll_cases l w1 eq_refl) as [Hp Hc];
      destruct (execAll l w1) as [w2 [e|]] eqn:E; rewrite (bind_of E)
  end; cbn [fst snd] in *.
  - unfold ret; cbn. rewrite Hc. discriminate.
  - destruct Hc as [Ha Hv].
    destruct (faults w2 (clock w2)) eqn:F1.
    + run_fail F1. run_rollback. cbn. discriminate.
    + run_ok F1. cbn. intros _. split; [reflexivity|].
      rewrite Hv. apply applyAll_stockInsert.
Qed.

Lemma UploadInventory_insert_fails inventoryToInsert w k e :
  k < length (data.Inventory_ inventoryToInsert) ->
  calm (1 + k) w ->
  faults w (clock w + (1 + k)) = Some e ->
  snd (uploadInventory inventoryToInsert w) = (Some e, 0%Z) /\
  status (fst (uploadInventory inventoryToInsert w)) = RolledBack /\
  persisted (fst (uploadInventory inventoryToInsert w)) = persisted w.
Proof.
  intros Hk Hcalm Hfail. unfold UploadInventory.
  run_ok (calm_now Hcalm). rewrite bind_insertStocks.
  match goal with
  | |- context [bind (execAll ?l) _ ?w1] =>
      destruct (@execAll_fail l k w1 e) as (H1 & H2 & H3);
        [rewrite length_map; exact Hk
        |apply calm_shift with (k := 1) (w := w);
           [exact Hcalm|reflexivity|reflexivity]
        |cbn; rewrite <- Hfail; f_equal; lia
        |reflexivity
        |destruct (execAll l w1) as [w2 r] eqn:E; rewrite (bind_of E)]
  end.
  cbn [fst snd] in *. subst r. cbn. auto.
Qed.

Lemma UploadProducts_commits product w :
  status (fst (uploadProducts product w)) = Committed ->
  snd (uploadProducts product w) = (None, len (data.Products_ product)) /\
  persisted (fst (uploadProducts product w))
    = withProducts exec_insertProduct (data.Products_ product) (persisted w).
Proof.
  unfold UploadProducts.
  destruct (faults w (clock w)) eqn:F0; [run_fail F0; cbn; discriminate|].
  run_ok F0. rewrite bind_insertProducts.
  match goal with
  | |- context [bind (execAll ?l) _ ?w1] =>
      destruct (execAll_cases l w1 eq_refl) as [Hp Hc];
      destruct (execAll l w1) as [w2 [e|]] eqn:E; rewrite (bind_of E)
  end; cbn [fst snd] in *.
  - unfold ret; cbn. rewrite Hc. discriminate.
  - destruct Hc as [Ha Hv].
    destruct (faults w2 (clock w2)) eqn:F1.
    + run_fail F1. run_rollback. cbn. discriminate.
    + run_ok F1. cbn. intros _. split; [reflexivity|].
      rewrite Hv. apply applyAll_productInserts.
Qed.

Lemma UploadProducts_insert_fails product w k e :
  k < compositionRows (data.Products_ product) ->
  calm (1 + k) w ->
  faults w (clock w + (1 + k)) = Some e ->
  snd (uploadProducts product w) = (Some e, 0%Z) /\
  status (fst (uploadProducts product w)) = RolledBack /\
  persisted (fst (uploadProducts product w)) = persisted w.
Proof.
  intros Hk Hcalm Hfail. unfold UploadProducts.
  run_ok (calm_now Hcalm). rewrite bind_insertProducts.
  match goal with
  | |- context [bind (execAll ?l) _ ?w1] =>
      destruct (@execAll_fail l k w1 e) as (H1 & H2 & H3);
        [rewrite length_productInserts; exact Hk
        |apply calm_shift with (k := 1) (w := w);
           [exact Hcalm|reflexivity|reflexivity]
        |cbn; rewrite <- Hfail; f_equal; lia
        |reflexivity
        |destruct (execAll l w1) as [w2 r] eqn:E; rewrite (bind_of E)]
  end.
  cbn [fst snd] in *. subst r. cbn. auto.
Qed.

(** C5: both uploads are all-or-nothing over the batch. When the
    transaction of UploadInventory (of UploadProducts) commits, the call
    returns nil with the number of records (of products) of the batch and
    every row of the batch is persisted. When an insert is the first store
    call to fail, the call returns that error with count zero, the
    transaction is rolled back and the persisted tables are as before. *)
Theorem uploads_all_or_nothing
    (inventoryToInsert : data.Inventory) (product : data.Products) (w : World) :
  (status (fst (uploadInventory inventoryToInsert w)) = Committed ->
   snd (uploadInventory inventoryToInsert w)
     = (None, len (data.Inventory_ inventoryToInsert)) /\
   persisted (fst (uploadInventory inventoryToInsert w))
     = withInventory exec_insertStock (data.Inventory_ inventoryToInsert) (persisted w)) /\
  (forall k e,
      k < length (data.Inventory_ inventoryToInsert) ->
      calm (1 + k) w ->
      faults w (clock w + (1 + k)) = Some e ->
      snd (uploadInventory inventoryToInsert w) = (Some e, 0%Z) /\
      status (fst (uploadInventory inventoryToInsert w)) = RolledBack /\
      persisted (fst (uploadInventory inventoryToInsert w)) = persisted w) /\
  (status (fst (uploadProducts product w)) = Committed ->
   snd (uploadProducts product w) = (None, len (data.Products_ product)) /\
   persisted (fst (uploadProducts product w))
     = withProducts exec_insertProduct (data.Products_ product) (persisted w)) /\
  (forall k e,
      k < compositionRows (data.Products_ product) ->
      calm (1 + k) w ->
      faults w (clock w + (1 + k)) = Some e ->
      snd (uploadProducts product w) = (Some e, 0%Z) /\
      status (fst (uploadProducts product w)) = RolledBack /\
      persisted (fst (uploadProducts product w)) = persisted w).
Proof.
  split; [apply UploadInventory_commits|].
  split; [intros k e; apply UploadInventory_insert_fails|].
  split; [apply UploadProducts_commits|].
  intros k e; apply UploadProducts_insert_fails.
Qed.

(** C6, as the code has it: when every insert of UploadInventory succeeds
    and the commit fails, the call returns nil with count zero, whatever
    the size of the batch; nothing is persisted. *)
Theorem UploadInventory_commit_fails inventoryToInsert w e :
  calm (1 + length (data.Inventory_ inventoryToInsert)) w ->
  faults w (clock w + (1 + length (data.Inventory_ inventoryToInsert))) = Some e ->
  snd (uploadInventory inventoryToInsert w) = (None, 0%Z) /\
  status (fst (uploadInventory inventoryToInsert w)) = CommitFailed /\
  persisted (fst (uploadInventory inventoryToInsert w)) = persisted w.
Proof.
  intros Hcalm Hfail. unfold UploadInventory.
  run_ok (calm_now Hcalm). rewrite bind_insertStocks.
  match goal with
  | |- context [bind (execAll ?l) _ ?w1] =>
      assert (Hc1 : calm (length l) w1)
        by (rewrite length_map; apply calm_shift with (k := 1) (w := w);
            [exact Hcalm|reflexivity|reflexivity]);
      rewrite (bind_of (@execAll_ok l w1 Hc1))
  end.
  cbv beta iota. rewrite length_map.
  cbn [persisted view status clock faults journal].
  assert (Hf : faults w (length (data.Inventory_ inventoryToInsert) + S (clock w))
               = Some e) by (rewrite <- Hfail; f_equal; lia).
  run_fail Hf. run_rollback. cbn. auto.
Qed.

(** C7: when every composition-row insert of UploadProducts succeeds and
    the commit fails, the call still returns nil with the number of
    products of the batch (although nothing is persisted). *)
Theorem UploadProducts_commit_fails product w e :
  calm (1 + compositionRows (data.Products_ product)) w ->
  faults w (clock w + (1 + compositionRows (data.Products_ product))) = Some e ->
  snd (uploadProducts product w) = (None, len (data.Products_ product)) /\
  status (fst (uploadProducts product w)) = CommitFailed /\
  persisted (fst (uploadProducts product w)) = persisted w.
Proof.
  intros Hcalm Hfail. unfold UploadProducts.
  run_ok (calm_now Hcalm). rewrite bind_insertProducts.
  match goal with
  | |- context [bind (execAll ?l) _ ?w1] =>
      assert (Hc1 : calm (length l) w1)
        by (rewrite length_productInserts; apply calm_shift with (k := 1) (w := w);
            [exact Hcalm|reflexivity|reflexivity]);
      rewrite (bind_of (@execAll_ok l w1 Hc1))
  end.
  cbv beta iota. rewrite length_productInserts.
  cbn [persisted view status clock faults journal].
  assert (Hf : faults w (compositionRows (data.Products_ product) + S (clock w))
               = Some e) by (rewrite <- Hfail; f_equal; lia).
  run_fail Hf. run_rollback. cbn. auto.
Qed.

Lemma UploadProducts_count product w :
  fst (snd (uploadProducts product w)) = None ->
  snd (snd (uploadProducts product w)) = len (data.Products_ product).
Proof.
  unfold UploadProducts.
  destruct (faults w (clock w)) eqn:F0; [run_fail F0; cbn; discriminate|].
  run_ok F0. rewrite bind_insertProducts.
  match goal with
  | |- context [bind (execAll ?l) _ ?w1] =>
      destruct (execAll l w1) as [w2 [e|]] eqn:E; rewrite (bind_of E)
  end.
  - cbn. discriminate.
  - destruct (faults w2 (clock w2)) eqn:F1.
    + run_fail F1. run_rollback. reflexivity.
    + run_ok F1. reflexivity.
Qed.

(** C8: when UploadProducts returns nil, the count it returns is the number
    of products of the batch, not the number of composition rows: a batch
    of one product counts 1 whatever the number of its composition
    entries. *)
Theorem UploadProducts_counts_products product w :
  fst (snd (uploadProducts product w)) = None ->
  snd (snd (uploadProducts product w)) = len (data.Products_ product) /\
  (forall name contains,
      data.Products_ product = [data.mkProduct name contains] ->
      snd (snd (uploadProducts product w)) = 1%Z).
Proof.
  intros Hnil. pose proof (UploadProducts_count product w Hnil) as Hcount.
  split; [exact Hcount|].
  intros name contains Hone. rewrite Hcount, Hone. reflexivity.
Qed.

End Uploading.

(** ** GetProductStock *)

Lemma forRows_keepAvailable rows stocks w :
  calm (2 * length rows + 1) w ->
  forRows rows (fun e => (Some e, [])) keepAvailable stocks w =
  (advance (2 * length rows + 1) w, Continue (stocks ++ available rows, None)).
Proof.
  revert stocks w. induction rows as [|[productName stock] rest IH];
    intros stocks w Hcalm.
  - rewrite forRows_nil, (calm_now Hcalm). unfold available; cbn.
    rewrite app_nil_r. reflexivity.
  - replace (2 * length ((productName, stock) :: rest) + 1)
      with (S (S (2 * length rest + 1))) in * by (cbn [length]; lia).
    rewrite forRows_cons, (calm_now Hcalm), (calm_second Hcalm).
    assert (Hrest : calm (2 * length rest + 1) (advance 2 w))
      by (apply calm_shift with (k := 2) (w := w);
          [exact Hcalm|reflexivity|reflexivity]).
    unfold keepAvailable at 1, available. cbn [filter map fst snd].
    destruct (negb (fst (strconv.ParseInt stock) =? 0)%Z); unfold ret at 1.
    + rewrite IH by exact Hrest. rewrite advance_advance.
      unfold available. cbn [map]. rewrite <- app_assoc. cbn [app].
      f_equal. f_equal. lia.
    + rewrite IH by exact Hrest. rewrite advance_advance.
      unfold available. f_equal. f_equal. lia.
Qed.

Lemma ParseInt_syntax_zero text :
  snd (strconv.ParseInt text) = Some strconv.ErrSyntax ->
  fst (strconv.ParseInt text) = 0%Z.
Proof.
  unfold strconv.ParseInt. destruct text as [|s0 tail]; [reflexivity|].
  cbv zeta.
  destruct (strconv.ParseUint _) as [un [[|]|]]; cbn [fst snd].
  - reflexivity.
  - destruct (_ && _); [discriminate|]. destruct (_ && _); discriminate.
  - destruct (_ && _); [discriminate|]. destruct (_ && _); discriminate.
Qed.

Lemma ParseInt_range_nonzero text :
  snd (strconv.ParseInt text) = Some strconv.ErrRange ->
  fst (strconv.ParseInt text) <> 0%Z.
Proof.
  unfold strconv.ParseInt. destruct text as [|s0 tail]; [discriminate|].
  cbv zeta.
  destruct (strconv.ParseUint _) as [un [[|]|]]; cbn [fst snd].
  - discriminate.
  - destruct (_ && _); [intros _; vm_compute; discriminate|].
    destruct (_ && _); [intros _; vm_compute; discriminate|discriminate].
  - destruct (_ && _); [intros _; vm_compute; discriminate|].
    destruct (_ && _); [intros _; vm_compute; discriminate|discriminate].
Qed.

Section Availability.

Variable rows_getProductStock : DB -> list (string * string).

Local Abbreviation getProductStock := (GetProductStock rows_getProductStock).

Lemma GetProductStock_available w :
  calm (3 + 2 * length (rows_getProductStock (persisted w))) w ->
  snd (getProductStock w) = (None, available (rows_getProductStock (persisted w))) /\
  status (fst (getProductStock w)) = RolledBack /\
  persisted (fst (getProductStock w)) = persisted w.
Proof.
  intros Hcalm. unfold GetProductStock.
  run_ok (calm_now Hcalm). unfold defer. run_ok (calm_second Hcalm).
  match goal with
  | |- context [bind (forRows ?rows _ _ ?s) _ ?w2] =>
      rewrite (bind_of (@forRows_keepAvailable rows s w2
                 ltac:(apply calm_shift with (k := 2) (w := w);
                       [eapply calm_less; [|exact Hcalm]; lia
                       |reflexivity|reflexivity])))
  end.
  flatten. run_rollback. cbn. auto.
Qed.

(** C9, as the code has it: when the store calls succeed, GetProductStock
    returns nil and exactly the rows whose availability text ParseInt
    values other than zero, in the order of the rows and with the text as
    scanned. No error is raised for a text that fails to parse. A text for
    which ParseInt reports a syntax error (ErrSyntax) is valued zero, so
    its row is left out. A text for which ParseInt reports a range error
    (ErrRange) is valued at a bound of int64, so its row is kept. Of the
    rows widget "0" and gadget "4" only gadget is returned. *)
Theorem GetProductStock_filters_zero w :
  calm (3 + 2 * length (rows_getProductStock (persisted w))) w ->
  snd (getProductStock w) = (None, available (rows_getProductStock (persisted w))) /\
  (forall name text,
      snd (strconv.ParseInt text) = Some strconv.ErrSyntax ->
      ~ In (data.mkProductStock name text) (snd (snd (getProductStock w)))) /\
  (forall name text,
      In (name, text) (rows_getProductStock (persisted w)) ->
      snd (strconv.ParseInt text) = Some strconv.ErrRange ->
      In (data.mkProductStock name text) (snd (snd (getProductStock w)))) /\
  snd (GetProductStock
         (SpecStore.rows_fixed [("widget", "0"); ("gadget", "4")]%string)
         (SpecStore.idle SpecStore.empty SpecStore.never))
    = (None, [data.mkProductStock "gadget" "4"]).
Proof.
  intros Hcalm. destruct (GetProductStock_available w Hcalm) as (Hrun & _ & _).
  split; [exact Hrun|]. split; [|split; [|reflexivity]].
  - intros name text Hsyntax Hin. rewrite Hrun in Hin. cbn [snd] in Hin.
    unfold available in Hin. apply in_map_iff in Hin.
    destruct Hin as ([name1 text1] & Heq & Hkept).
    apply filter_In in Hkept. destruct Hkept as [_ Hvalue].
    cbn [fst snd] in *. inversion Heq; subst.
    rewrite (ParseInt_syntax_zero _ Hsyntax) in Hvalue. discriminate.
  - intros name text Hrow Hrange. rewrite Hrun. cbn [snd].
    unfold available. apply in_map_iff. exists (name, text).
    split; [reflexivity|]. apply filter_In. split; [exact Hrow|].
    cbn [snd]. apply negb_true_iff, Z.eqb_neq.
    apply ParseInt_range_nonzero. exact Hrange.
Qed.

(** C10: when the store calls succeed, a row whose availability text
    parses to a negative integer is part of the result of GetProductStock,
    and its entry carries the text as scanned. The filter leaves out the
    rows valued zero and no other: the result is the rows valued other than
    zero, in their order, so an entry is returned exactly when it comes
    from a row whose text ParseInt values other than zero. *)
Theorem GetProductStock_keeps_negative w name text :
  calm (3 + 2 * length (rows_getProductStock (persisted w))) w ->
  In (name, text) (rows_getProductStock (persisted w)) ->
  (fst (strconv.ParseInt text) < 0)%Z ->
  fst (snd (getProductStock w)) = None /\
  In (data.mkProductStock name text) (snd (snd (getProductStock w))) /\
  snd (snd (getProductStock w)) =
    map (fun row => data.mkProductStock (fst row) (snd row))
      (filter (fun row => negb (fst (strconv.ParseInt (snd row)) =? 0)%Z)
         (rows_getProductStock (persisted w))) /\
  (forall name1 text1,
      In (data.mkProductStock name1 text1) (snd (snd (getProductStock w))) <->
      In (name1, text1) (rows_getProductStock (persisted w)) /\
      fst (strconv.ParseInt text1) <> 0%Z).
Proof.
  intros Hcalm Hrow Hneg.
  destruct (GetProductStock_available w Hcalm) as (Hrun & _ & _).
  rewrite Hrun. cbn [fst snd].
  assert (Hexact : forall name1 text1,
    In (data.mkProductStock name1 text1)
       (available (rows_getProductStock (persisted w))) <->
    In (name1, text1) (rows_getProductStock (persisted w)) /\
    fst (strconv.ParseInt text1) <> 0%Z).
  { intros name1 text1. unfold available. rewrite in_map_iff. split.
    - intros ([name2 text2] & Heq & Hkept). apply filter_In in Hkept.
      destruct Hkept as [Hin Hvalue]. cbn [fst snd] in *.
      inversion Heq; subst. split; [exact Hin|].
      apply Z.eqb_neq, negb_true_iff. exact Hvalue.
    - intros [Hin Hvalue]. exists (name1, text1). split; [reflexivity|].
      apply filter_In. split; [exact Hin|].
      cbn [snd]. apply negb_true_iff, Z.eqb_neq. exact Hvalue. }
  split; [reflexivity|]. split; [apply Hexact; split; [exact Hrow|lia]|].
  split; [reflexivity|exact Hexact].
Qed.

End Availability.

(** ** The engine on the example store *)

Module Examples.

Import SpecStore.

Local Open Scope string_scope.

Lemma calm_never n db : calm n (idle db never).
Proof. intros i _. reflexivity. Qed.

Lemma calm_before k n e db : n <= k -> calm n (idle db (failing k e)).
Proof.
  intros Hle i Hi. cbn. unfold failing.
  destruct (Nat.eqb_spec i k); [lia|reflexivity].
Qed.

(** The sale of the specification's example: from five legs and three tops,
    selling a table leaves three legs and two tops, and reports success. *)
Example SellProduct_sells_table :
  snd (SpecStore.SellProduct "table" (idle furnished never)) = None /\
  status (fst (SpecStore.SellProduct "table" (idle furnished never))) = Committed /\
  articles (persisted (fst (SpecStore.SellProduct "table" (idle furnished never))))
    = [data.mkStock "A1" "leg" "3"; data.mkStock "A2" "top" "2"].
Proof. repeat split; vm_compute; reflexivity. Qed.

Lemma SellProduct_out_of_stock_witness :
  snd (SpecStore.SellProduct "table" (idle depleted never)) = Some OutOfStockError /\
  status (fst (SpecStore.SellProduct "table" (idle depleted never))) = RolledBack /\
  journal (fst (SpecStore.SellProduct "table" (idle depleted never))) =
    [CallBeginTx; CallQuery productExist ["table"];
     CallQuery inStock ["table"]; CallRollback] /\
  persisted (fst (SpecStore.SellProduct "table" (idle depleted never))) = depleted /\
  articles (persisted (fst (SpecStore.SellProduct "table" (idle depleted never))))
    = articles depleted.
Proof.
  apply (SellProduct_out_of_stock rows_productExist rows_inStock exec_updateSaleInfo
           "table" (idle depleted never)).
  - vm_compute. constructor; [discriminate|constructor].
  - vm_compute. apply Exists_cons_hd. discriminate.
  - apply calm_never.
Defined.

Lemma SellProduct_not_found_witness :
  snd (SpecStore.SellProduct "chair" (idle furnished never))
    = Some ProductNotFoundError /\
  status (fst (SpecStore.SellProduct "chair" (idle furnished never))) = RolledBack /\
  journal (fst (SpecStore.SellProduct "chair" (idle furnished never))) =
    [CallBeginTx; CallQuery productExist ["chair"]; CallRollback] /\
  persisted (fst (SpecStore.SellProduct "chair" (idle furnished never))) = furnished /\
  articles (persisted (fst (SpecStore.SellProduct "chair" (idle furnished never))))
    = articles furnished.
Proof.
  apply (SellProduct_not_found rows_productExist rows_inStock exec_updateSaleInfo
           "chair" (idle furnished never)).
  - vm_compute. apply Exists_cons_hd. reflexivity.
  - apply calm_never.
Defined.

(** C3: the claim holds of the code on every path but one. When a query of
    SellProduct fails, the call returns nil: here the product-exists query
    (store call 1) fails on a store where the table could be sold, nothing
    is decremented and nothing committed, and still no error is returned.
    The run neither fully succeeds nor fully fails. *)
Theorem SellProduct_query_failure_breaks_atomicity :
  snd (Query productExist ["table"] (rows_productExist "table")
         (fst (BeginTx (idle furnished (failing 1 reset))))) = Err reset /\
  snd (SpecStore.SellProduct "table" (idle furnished (failing 1 reset))) = None /\
  status (fst (SpecStore.SellProduct "table" (idle furnished (failing 1 reset))))
    = RolledBack /\
  persisted (fst (SpecStore.SellProduct "table" (idle furnished (failing 1 reset))))
    = furnished /\
  furnished <> exec_updateSaleInfo "table" furnished.
Proof.
  repeat split; try (vm_compute; reflexivity).
  vm_compute. discriminate.
Qed.

(** C4: a failure of the product-exists query (store call 1) or of the
    product-in-stock query (store call 5 on this store) is not returned:
    in both runs SellProduct returns nil, the value of the variable [err],
    where the claim has it return the failure of the query. *)
Theorem SellProduct_swallows_query_failure :
  (snd (Query productExist ["table"] (rows_productExist "table")
          (fst (BeginTx (idle furnished (failing 1 reset))))) = Err reset /\
   snd (SpecStore.SellProduct "table" (idle furnished (failing 1 reset))) = None) /\
  (journal (fst (SpecStore.SellProduct "table" (idle furnished (failing 5 reset))))
     = [CallBeginTx; CallQuery productExist ["table"];
        CallQuery inStock ["table"]; CallRollback] /\
   snd (SpecStore.SellProduct "table" (idle furnished (failing 5 reset))) = None).
Proof.
  repeat split; vm_compute; reflexivity.
Qed.

Lemma uploads_all_or_nothing_witness :
  (snd (SpecStore.UploadInventory stockBatch (idle empty never)) = (None, 2%Z) /\
   persisted (fst (SpecStore.UploadInventory stockBatch (idle empty never)))
     = mkDB (data.Inventory_ stockBatch) []) /\
  (snd (SpecStore.UploadInventory stockBatch (idle empty (failing 2 reset)))
     = (Some reset, 0%Z) /\
   persisted (fst (SpecStore.UploadInventory stockBatch (idle empty (failing 2 reset))))
     = empty) /\
  (snd (SpecStore.UploadProducts tableBatch (idle empty never)) = (None, 1%Z) /\
   persisted (fst (SpecStore.UploadProducts tableBatch (idle empty never)))
     = mkDB [] (compositions furnished)) /\
  (snd (SpecStore.UploadProducts tableBatch (idle empty (failing 2 reset)))
     = (Some reset, 0%Z) /\
   persisted (fst (SpecStore.UploadProducts tableBatch (idle empty (failing 2 reset))))
     = empty).
Proof.
  destruct (uploads_all_or_nothing exec_insertProduct exec_insertStock
              stockBatch tableBatch (idle empty never))
    as (Hinv & _ & Hprod & _).
  destruct (uploads_all_or_nothing exec_insertProduct exec_insertStock
              stockBatch tableBatch (idle empty (failing 2 reset)))
    as (_ & Hinv_fail & _ & Hprod_fail).
  destruct (Hinv ltac:(vm_compute; reflexivity)) as [H1 H2].
  destruct (Hprod ltac:(vm_compute; reflexivity)) as [H3 H4].
  destruct (Hinv_fail 1 reset ltac:(cbn; lia) (calm_before 2 2 reset empty (le_n 2))
              eq_refl) as (H5 & _ & H6).
  destruct (Hprod_fail 1 reset ltac:(cbn; lia) (calm_before 2 2 reset empty (le_n 2))
              eq_refl) as (H7 & _ & H8).
  repeat split; assumption.
Defined.

(** C6 as stated fails: with a batch of two stock records whose inserts
    succeed and whose commit (store call 3) fails, UploadInventory returns
    nil with count 0, not with the two rows of the batch. *)
Lemma UploadInventory_commit_failure_reports_zero :
  calm 3 (idle empty (failing 3 reset)) /\
  failing 3 reset 3 = Some reset /\
  len (data.Inventory_ stockBatch) = 2%Z /\
  snd (SpecStore.UploadInventory stockBatch (idle empty (failing 3 reset)))
    = (None, 0%Z) /\
  snd (SpecStore.UploadInventory stockBatch (idle empty (failing 3 reset)))
    <> (None, len (data.Inventory_ stockBatch)).
Proof.
  split; [apply calm_before; lia|].
  repeat split; try (vm_compute; reflexivity).
  vm_compute. discriminate.
Qed.

Lemma UploadInventory_commit_fails_witness :
  snd (SpecStore.UploadInventory stockBatch (idle empty (failing 3 reset)))
    = (None, 0%Z) /\
  status (fst (SpecStore.UploadInventory stockBatch (idle empty (failing 3 reset))))
    = CommitFailed /\
  persisted (fst (SpecStore.UploadInventory stockBatch (idle empty (failing 3 reset))))
    = empty.
Proof.
  apply (UploadInventory_commit_fails exec_insertStock stockBatch
           (idle empty (failing 3 reset)) reset).
  - apply calm_before. cbn. lia.
  - reflexivity.
Defined.

Lemma UploadProducts_commit_fails_witness :
  snd (SpecStore.UploadProducts tableBatch (idle empty (failing 3 reset)))
    = (None, 1%Z) /\
  status (fst (SpecStore.UploadProducts tableBatch (idle empty (failing 3 reset))))
    = CommitFailed /\
  persisted (fst (SpecStore.UploadProducts tableBatch (idle empty (failing 3 reset))))
    = empty.
Proof.
  apply (UploadProducts_commit_fails exec_insertProduct tableBatch
           (idle empty (failing 3 reset)) reset).
  - apply calm_before. cbn. lia.
  - reflexivity.
Defined.

Lemma UploadProducts_counts_products_witness :
  snd (snd (SpecStore.UploadProducts tableBatch (idle empty never))) = 1%Z /\
  length (compositions
            (persisted (fst (SpecStore.UploadProducts tableBatch (idle empty never)))))
    = 2.
Proof.
  split; [|reflexivity].
  apply (UploadProducts_counts_products exec_insertProduct tableBatch
           (idle empty never) eq_refl).
Defined.

(** C9 as stated fails: the text 9223372036854775808 fails to parse (it is
    out of the range of int64), so the specification counts it as zero and
    leaves the row out, but ParseInt values it at the largest int64 and
    GetProductStock returns the row. *)
Lemma GetProductStock_keeps_out_of_range_row :
  strconv.ParseInt "9223372036854775808"
    = (9223372036854775807%Z, Some strconv.ErrRange) /\
  availableBySpec [("crate", "9223372036854775808")] = [] /\
  snd (GetProductStock (rows_fixed [("crate", "9223372036854775808")])
         (idle empty never))
    = (None, [data.mkProductStock "crate" "9223372036854775808"]) /\
  snd (snd (GetProductStock (rows_fixed [("crate", "9223372036854775808")])
              (idle empty never)))
    <> availableBySpec [("crate", "9223372036854775808")].
Proof.
  repeat split; try (vm_compute; reflexivity).
  vm_compute. discriminate.
Qed.

Lemma GetProductStock_filters_zero_witness :
  snd (GetProductStock (rows_fixed [("widget", "0"); ("gadget", "4"); ("bolt", "x1")])
         (idle empty never))
    = (None, [data.mkProductStock "gadget" "4"]).
Proof.
  destruct (GetProductStock_filters_zero
              (rows_fixed [("widget", "0"); ("gadget", "4"); ("bolt", "x1")])
              (idle empty never) (calm_never _ empty)) as (Hrun & _ & _ & _).
  exact Hrun.
Defined.

Lemma GetProductStock_keeps_negative_witness :
  fst (snd (GetProductStock (rows_fixed [("widget", "0"); ("bolt", "-3")])
              (idle empty never))) = None /\
  In (data.mkProductStock "bolt" "-3")
     (snd (snd (GetProductStock (rows_fixed [("widget", "0"); ("bolt", "-3")])
                  (idle empty never)))) /\
  snd (snd (GetProductStock (rows_fixed [("widget", "0"); ("bolt", "-3")])
              (idle empty never)))
    = [data.mkProductStock "bolt" "-3"] /\
  ~ In (data.mkProductStock "widget" "0")
      (snd (snd (GetProductStock (rows_fixed [("widget", "0"); ("bolt", "-3")])
                   (idle empty never)))).
Proof.
  destruct (GetProductStock_keeps_negative
              (rows_fixed [("widget", "0"); ("bolt", "-3")])
              (idle empty never) "bolt" "-3" (calm_never _ empty))
    as (Hnil & Hin & Hall & Hexact).
  - right. left. reflexivity.
  - vm_compute. reflexivity.
  - split; [exact Hnil|]. split; [exact Hin|]. split; [exact Hall|].
    intros Hwidget. apply Hexact in Hwidget. destruct Hwidget as [_ Hvalue].
    apply Hvalue. reflexivity.
Defined.

End Examples.

(** ** Loops that only gather rows *)

Section Gathering.

Context {T St R : Type}.
Variable onScanErr : error -> R.
Variable body : T -> St -> M (flow St R).
Variable step : T -> St -> St.
Hypothesis body_step : forall x s w, body x s w = (w, Continue (step x s)).

Lemma forRows_gather rows s w :
  calm (2 * length rows + 1) w ->
  forRows rows onScanErr body s w =
  (advance (2 * length rows + 1) w,
   Continue (fold_left (fun s x => step x s) rows s, None)).
Proof.
  revert s w. induction rows as [|x rest IH]; intros s w Hcalm.
  - rewrite forRows_nil, (calm_now Hcalm). reflexivity.
  - replace (2 * length (x :: rest) + 1) with (S (S (2 * length rest + 1))) in *
      by (cbn [length]; lia).
    rewrite forRows_cons, (calm_now Hcalm), (calm_second Hcalm), body_step.
    rewrite IH by (apply calm_shift with (k := 2) (w := w);
                   [exact Hcalm|reflexivity|reflexivity]).
    rewrite advance_advance. cbn [fold_left]. f_equal. f_equal. lia.
Qed.

(** The store call number [k] of the loop is the first to fail: a failed Scan
    returns from the function, a failed Next ends the loop with the failure
    as [rows.Err()]. *)
Lemma forRows_gather_fails rows s w k e :
  k < 2 * length rows + 1 ->
  calm k w ->
  faults w (clock w + k) = Some e ->
  forRows rows onScanErr body s w = (advance (S k) w, Return (onScanErr e)) \/
  exists s1, forRows rows onScanErr body s w = (advance (S k) w, Continue (s1, Some e)).
Proof.
  revert s w k. induction rows as [|x rest IH]; intros s w k Hk Hcalm Hfail.
  - cbn [length] in Hk. assert (k = 0) by lia. subst k.
    rewrite Nat.add_0_r in Hfail. right. exists s.
    rewrite forRows_nil, Hfail. reflexivity.
  - rewrite forRows_cons. destruct k as [|[|k]].
    + rewrite Nat.add_0_r in Hfail. rewrite Hfail. right. exists s. reflexivity.
    + rewrite (calm_now Hcalm).
      replace (clock w + 1) with (S (clock w)) in Hfail by lia.
      rewrite Hfail. left. reflexivity.
    + rewrite (calm_now Hcalm), (calm_second Hcalm), body_step.
      destruct (IH (step x s) (advance 2 w) k) as [H|[s1 H]].
      * cbn [length] in Hk. lia.
      * apply calm_shift with (k := 2) (w := w); [exact Hcalm|reflexivity|reflexivity].
      * cbn. rewrite <- Hfail. f_equal. lia.
      * left. rewrite H, advance_advance. f_equal. f_equal. lia.
      * right. exists s1. rewrite H, advance_advance. f_equal. f_equal. lia.
Qed.

(** Whatever the store does, the loop only steps the clock, and it ends the
    function only with what a failed Scan returns. *)
Lemma forRows_gather_frame rows s w :
  exists k,
    fst (forRows rows onScanErr body s w) = advance k w /\
    ((exists e, snd (forRows rows onScanErr body s w) = Return (onScanErr e)) \/
     (exists s1 e, snd (forRows rows onScanErr body s w) = Continue (s1, Some e)) \/
     (exists s1, snd (forRows rows onScanErr body s w) = Continue (s1, None))).
Proof.
  revert s w. induction rows as [|x rest IH]; intros s w.
  - rewrite forRows_nil. exists 1. split; [reflexivity|]. right.
    destruct (faults w (clock w)) as [e|]; [left; exists s, e|right; exists s];
      reflexivity.
  - rewrite forRows_cons.
    destruct (faults w (clock w)) as [e|].
    { exists 1. split; [reflexivity|]. right. left. exists s, e. reflexivity. }
    destruct (faults w (S (clock w))) as [e|].
    { exists 2. split; [reflexivity|]. left. exists e. reflexivity. }
    rewrite body_step. destruct (IH (step x s) (advance 2 w)) as (k & Hk & Hr).
    exists (k + 2). rewrite Hk, advance_advance. split; [reflexivity|exact Hr].
Qed.

End Gathering.

(** ** The two listings: GetInventory and GetProductStock *)

Section Listing.

Context {T A : Type}.
Variable stmt : Statement.
Variable sel : DB -> list T.
Variable body : T -> list A -> M (flow (list A) (option error * list A)).
Variable step : T -> list A -> list A.
Hypothesis body_step : forall x s w, body x s w = (w, Continue (step x s)).

Lemma readRows_calm w :
  calm (3 + 2 * length (sel (persisted w))) w ->
  readRows stmt sel body w =
  (mkWorld (persisted w) (persisted w) RolledBack
     (3 + 2 * length (sel (persisted w)) + clock w) (faults w)
     (journal w ++ [CallBeginTx; CallQuery stmt []; CallRollback]),
   (None, fold_left (fun s x => step x s) (sel (persisted w)) [])).
Proof.
  intros Hcalm. unfold readRows.
  run_ok (calm_now Hcalm). unfold defer. run_ok (calm_second Hcalm).
  match goal with
  | |- context [bind (forRows ?rows ?f ?b ?s) _ ?w2] =>
      rewrite (bind_of (@forRows_gather _ _ _ f b step body_step rows s w2
                 ltac:(apply calm_shift with (k := 2) (w := w);
                       [eapply calm_less; [|exact Hcalm]; lia
                       |reflexivity|reflexivity])))
  end.
  flatten. run_rollback. unfold ret. f_equal. f_equal.
  - lia.
  - repeat rewrite <- app_assoc. reflexivity.
Qed.

Lemma readRows_first_failure w k e :
  k < 3 + 2 * length (sel (persisted w)) ->
  calm k w ->
  faults w (clock w + k) = Some e ->
  snd (readRows stmt sel body w) = (Some e, []) /\
  persisted (fst (readRows stmt sel body w)) = persisted w /\
  status (fst (readRows stmt sel body w)) <> Committed.
Proof.
  intros Hk Hcalm Hfail. unfold readRows. destruct k as [|[|k]].
  - rewrite Nat.add_0_r in Hfail. run_fail Hfail.
    cbn. repeat split; try reflexivity. discriminate.
  - replace (clock w + 1) with (S (clock w)) in Hfail by lia.
    run_ok (calm_now Hcalm). unfold defer. run_fail Hfail. run_rollback.
    cbn. repeat split; try reflexivity. discriminate.
  - run_ok (calm_now Hcalm). unfold defer. run_ok (calm_second Hcalm).
    match goal with
    | |- context [bind (forRows ?rows ?f ?b ?s) _ ?w2] =>
        destruct (@forRows_gather_fails _ _ _ f b step body_step rows s w2 k e)
          as [H|[s1 H]];
          [lia
          |apply calm_shift with (k := 2) (w := w);
             [exact Hcalm|reflexivity|reflexivity]
          |cbn; rewrite <- Hfail; f_equal; lia
          |rewrite (bind_of H)|rewrite (bind_of H)]
    end; flatten; run_rollback; cbn; repeat split; try reflexivity; discriminate.
Qed.

Lemma readRows_frame w :
  persisted (fst (readRows stmt sel body w)) = persisted w /\
  status (fst (readRows stmt sel body w)) <> Committed /\
  (fst (snd (readRows stmt sel body w)) <> None ->
   snd (snd (readRows stmt sel body w)) = []).
Proof.
  unfold readRows.
  destruct (faults w (clock w)) eqn:F0.
  { run_fail F0. cbn. repeat split; try reflexivity. discriminate. }
  run_ok F0. unfold defer.
  destruct (faults w (S (clock w))) eqn:F1.
  { run_fail F1. run_rollback. cbn. repeat split; try reflexivity. discriminate. }
  run_ok F1.
  match goal with
  | |- context [bind (forRows ?rows ?f ?b ?s) _ ?w2] =>
      destruct (@forRows_gather_frame _ _ _ f b step body_step rows s w2)
        as (k & Hk & Hr);
      destruct (forRows rows f b s w2) as [w3 r] eqn:E
  end.
  cbn [fst snd] in Hk, Hr. subst w3. rewrite (bind_of E).
  destruct Hr as [[e Hr]|[(s1 & e & Hr)|[s1 Hr]]]; subst r;
    flatten; run_rollback; cbn; repeat split; try reflexivity;
    try discriminate.
  intros H. contradiction.
Qed.

End Listing.

Lemma keepAvailable_step row stocks w :
  keepAvailable row stocks w =
  (w, Continue
        (if negb (fst (strconv.ParseInt (snd row)) =? 0)%Z
         then stocks ++ [data.mkProductStock (fst row) (snd row)]
         else stocks)).
Proof.
  destruct row as [productName stock]. unfold keepAvailable. cbn [fst snd].
  destruct (negb _); reflexivity.
Qed.

Lemma appendStock_step row stocks w :
  appendStock row stocks w =
  (w, Continue
        (stocks ++ [data.mkStock (fst (fst row)) (snd (fst row)) (snd row)])).
Proof. destruct row as [[artId artName] stock]. reflexivity. Qed.

Lemma gathered_stocks rows stocks :
  fold_left
    (fun s row => s ++ [data.mkStock (fst (fst row)) (snd (fst row)) (snd row)])
    rows stocks
  = stocks ++ stocksOf rows.
Proof.
  revert stocks. induction rows as [|row rest IH]; intros stocks.
  - cbn. rewrite app_nil_r. reflexivity.
  - cbn [fold_left]. rewrite IH. unfold stocksOf. cbn [map].
    rewrite <- app_assoc. reflexivity.
Qed.

Section Reads.

Variable getInventory : Statement.
Variable rows_getInventory : DB -> list (string * string * string).
Variable rows_getProductStock : DB -> list (string * string).

(** X1: when no store call fails, GetInventory returns nil and one stock
    record per row of the listing, in the order of the rows and with the
    three texts as scanned (so no record at all, and still no error, when
    the listing is empty); its transaction is rolled back and the persisted
    tables are as before. *)
Theorem GetInventory_lists_stock w :
  calm (3 + 2 * length (rows_getInventory (persisted w))) w ->
  snd (GetInventory getInventory rows_getInventory w)
    = (None, stocksOf (rows_getInventory (persisted w))) /\
  (rows_getInventory (persisted w) = [] ->
   snd (GetInventory getInventory rows_getInventory w) = (None, [])) /\
  status (fst (GetInventory getInventory rows_getInventory w)) = RolledBack /\
  journal (fst (GetInventory getInventory rows_getInventory w))
    = journal w ++ [CallBeginTx; CallQuery getInventory []; CallRollback] /\
  persisted (fst (GetInventory getInventory rows_getInventory w)) = persisted w.
Proof.
  intros Hcalm.
  change (GetInventory getInventory rows_getInventory)
    with (readRows getInventory rows_getInventory appendStock).
  rewrite (readRows_calm _ _ _ _ appendStock_step w Hcalm).
  cbn [fst snd]. rewrite gathered_stocks. cbn [app].
  repeat split; try reflexivity.
  intros Hempty. rewrite Hempty. reflexivity.
Qed.

(** X2: whatever store call fails, the two listings leave the persisted
    tables as they were and never end with a committed transaction; and
    when one of them returns an error it returns no rows with it. *)
Theorem listings_change_nothing w :
  (persisted (fst (GetInventory getInventory rows_getInventory w)) = persisted w /\
   status (fst (GetInventory getInventory rows_getInventory w)) <> Committed /\
   (fst (snd (GetInventory getInventory rows_getInventory w)) <> None ->
    snd (snd (GetInventory getInventory rows_getInventory w)) = [])) /\
  (persisted (fst (GetProductStock rows_getProductStock w)) = persisted w /\
   status (fst (GetProductStock rows_getProductStock w)) <> Committed /\
   (fst (snd (GetProductStock rows_getProductStock w)) <> None ->
    snd (snd (GetProductStock rows_getProductStock w)) = [])).
Proof.
  split.
  - exact (readRows_frame getInventory rows_getInventory _ _ appendStock_step w).
  - exact (readRows_frame getProductStock rows_getProductStock _ _
             keepAvailable_step w).
Qed.

(** X3: the first store call to fail during a listing (BeginTx, the query, a
    Next or a Scan) is the error the listing returns, with no rows; the
    persisted tables are as before. *)
Theorem listings_return_first_failure w k e :
  calm k w ->
  faults w (clock w + k) = Some e ->
  (k < 3 + 2 * length (rows_getInventory (persisted w)) ->
   snd (GetInventory getInventory rows_getInventory w) = (Some e, []) /\
   persisted (fst (GetInventory getInventory rows_getInventory w)) = persisted w) /\
  (k < 3 + 2 * length (rows_getProductStock (persisted w)) ->
   snd (GetProductStock rows_getProductStock w) = (Some e, []) /\
   persisted (fst (GetProductStock rows_getProductStock w)) = persisted w).
Proof.
  intros Hcalm Hfail. split; intros Hk.
  - destruct (readRows_first_failure getInventory rows_getInventory _ _
                appendStock_step w k e Hk Hcalm Hfail) as (H1 & H2 & _).
    split; assumption.
  - destruct (readRows_first_failure getProductStock rows_getProductStock _ _
                keepAvailable_step w k e Hk Hcalm Hfail) as (H1 & H2 & _).
    split; assumption.
Qed.

End Reads.

(** ** SellProduct, path by path *)

Lemma defer_of {A} (f : M unit) (body : M A) w w1 a :
  body w = (w1, a) -> defer f body w = (fst (f w1), a).
Proof.
  intros H. unfold defer. rewrite (bind_of H). unfold bind.
  destruct (f w1). reflexivity.
Qed.

Lemma forRows_next_fails {T St R} rows (onScanErr : error -> R)
    (body : T -> St -> M (flow St R)) s w e :
  faults w (clock w) = Some e ->
  forRows rows onScanErr body s w = (advance 1 w, Continue (s, Some e)).
Proof.
  intros H. destruct rows; [rewrite forRows_nil|rewrite forRows_cons];
    rewrite H; reflexivity.
Qed.

Section SellingPaths.

Variable rows_productExist : string -> DB -> list Z.
Variable rows_inStock : string -> DB -> list Z.
Variable exec_updateSaleInfo : string -> DB -> DB.

Local Abbreviation sell :=
  (SellProduct rows_productExist rows_inStock exec_updateSaleInfo).
Local Abbreviation update := (sellUpdate exec_updateSaleInfo).
Local Abbreviation stockCheck := (sellStockCheck rows_inStock exec_updateSaleInfo).

Lemma sellUpdate_ok productName w :
  calm 2 w ->
  update productName w =
  (mkWorld (exec_updateSaleInfo productName (view w))
     (exec_updateSaleInfo productName (view w)) Committed (2 + clock w) (faults w)
     (journal w ++ [CallExec updateSaleInfo [productName]; CallCommit]), None).
Proof.
  intros Hcalm. unfold sellUpdate.
  run_ok (calm_now Hcalm). run_ok (calm_second Hcalm).
  unfold ret. repeat rewrite <- app_assoc. reflexivity.
Qed.

Lemma sellUpdate_fails productName w k e :
  k < 2 ->
  calm k w ->
  faults w (clock w + k) = Some e ->
  status w = Active ->
  snd (update productName w) = Some e /\
  persisted (fst (update productName w)) = persisted w /\
  status (fst (update productName w)) <> Committed.
Proof.
  intros Hk Hcalm Hfail Hactive. unfold sellUpdate. destruct k as [|[|k]]; [| |lia].
  - rewrite Nat.add_0_r in Hfail. run_fail Hfail. run_rollback.
    cbn. repeat split; try reflexivity. discriminate.
  - replace (clock w + 1) with (S (clock w)) in Hfail by lia.
    run_ok (calm_now Hcalm). run_fail Hfail. run_rollback.
    cbn. repeat split; try reflexivity. discriminate.
Qed.

Lemma sellStockCheck_pass productName err w :
  Forall (fun flag => flag = 0%Z) (rows_inStock productName (view w)) ->
  calm (2 + 2 * length (rows_inStock productName (view w))) w ->
  stockCheck productName err w =
  update productName
    (mkWorld (persisted w) (view w) (status w)
       (2 + 2 * length (rows_inStock productName (view w)) + clock w) (faults w)
       (journal w ++ [CallQuery inStock [productName]])).
Proof.
  intros Hflags Hcalm. unfold sellStockCheck.
  run_ok (calm_now Hcalm).
  match goal with
  | |- context [bind (forRows ?rows ?f ?b ?s) _ ?w2] =>
      rewrite (bind_of (@forRows_pass (fun flag => negb (flag =? 0)%Z)
                          OutOfStockError rows s w2
                          ltac:(eapply Forall_impl; [|exact Hflags];
                                cbv beta; intros a Ha; subst a; reflexivity)
                          ltac:(apply calm_shift with (k := 1) (w := w);
                                [eapply calm_less; [|exact Hcalm]; lia
                                |reflexivity|reflexivity])))
  end.
  flatten. f_equal. f_equal. lia.
Qed.

Lemma SellProduct_reaches_stock_check productName w :
  Forall (fun flag => flag <> 0%Z) (rows_productExist productName (persisted w)) ->
  calm (3 + 2 * length (rows_productExist productName (persisted w))) w ->
  sell productName w =
  defer Rollback (stockCheck productName None)
    (mkWorld (persisted w) (persisted w) Active
       (3 + 2 * length (rows_productExist productName (persisted w)) + clock w)
       (faults w)
       (journal w ++ [CallBeginTx; CallQuery productExist [productName]])).
Proof.
  intros Hexists Hcalm. unfold SellProduct.
  run_ok (calm_now Hcalm). unfold defer at 1. run_ok (calm_second Hcalm).
  match goal with
  | |- context [bind (forRows ?rows ?f ?b ?s) _ ?w2] =>
      rewrite (bind_of (@forRows_pass (fun flag => (flag =? 0)%Z)
                          ProductNotFoundError rows s w2
                          ltac:(eapply Forall_impl; [|exact Hexists];
                                cbv beta; intros a Ha; apply Z.eqb_neq; exact Ha)
                          ltac:(apply calm_shift with (k := 2) (w := w);
                                [eapply calm_less; [|exact Hcalm]; lia
                                |reflexivity|reflexivity])))
  end.
  cbv beta iota. unfold defer, sellStockCheck, sellUpdate, advance.
  cbn [persisted view status clock faults journal].
  destruct (rows_productExist productName (persisted w));
    match goal with
    | |- ?f ?a = ?g ?b =>
        replace a with b;
          [reflexivity
          |f_equal; try (cbn [length]; lia);
           repeat rewrite <- app_assoc; reflexivity]
    end.
Qed.

End SellingPaths.

Lemma Rollback_frame w :
  persisted (fst (Rollback w)) = persisted w /\
  (status w <> Committed -> status (fst (Rollback w)) <> Committed).
Proof.
  destruct (status w) eqn:Hs.
  2:{ rewrite (Rollback_active w Hs). cbn. split; [reflexivity|discriminate]. }
  all: rewrite Rollback_done by (rewrite Hs; discriminate);
    cbn; rewrite Hs; split; [reflexivity|intros H; exact H].
Qed.

Section SellingOutcomes.

Variable rows_productExist : string -> DB -> list Z.
Variable rows_inStock : string -> DB -> list Z.
Variable exec_updateSaleInfo : string -> DB -> DB.

Local Abbreviation sell :=
  (SellProduct rows_productExist rows_inStock exec_updateSaleInfo).

(** X4: when the product exists (no product-exists flag is zero), every
    product-in-stock flag is zero and no store call fails, SellProduct
    returns nil, commits, and leaves persisted what the update statement
    makes of the tables; it issues the two queries, the update and the
    commit, in that order, and no rollback. *)
Theorem SellProduct_sells (productName : string) (w : World) :
  Forall (fun flag => flag <> 0%Z) (rows_productExist productName (persisted w)) ->
  Forall (fun flag => flag = 0%Z) (rows_inStock productName (persisted w)) ->
  calm (7 + 2 * length (rows_productExist productName (persisted w))
          + 2 * length (rows_inStock productName (persisted w))) w ->
  snd (sell productName w) = None /\
  status (fst (sell productName w)) = Committed /\
  persisted (fst (sell productName w))
    = exec_updateSaleInfo productName (persisted w) /\
  journal (fst (sell productName w)) =
    journal w ++ [CallBeginTx; CallQuery productExist [productName];
                  CallQuery inStock [productName];
                  CallExec updateSaleInfo [productName]; CallCommit].
Proof.
  intros Hexists Hflags Hcalm.
  set (E := rows_productExist productName (persisted w)) in *.
  set (K := rows_inStock productName (persisted w)) in *.
  rewrite (SellProduct_reaches_stock_check _ _ _ productName w Hexists)
    by (eapply calm_less; [|exact Hcalm]; fold E; lia).
  fold E.
  erewrite defer_of.
  2:{ rewrite sellStockCheck_pass.
      - apply sellUpdate_ok.
        cbn [view]. fold K.
        apply calm_shift with (k := 5 + 2 * length E + 2 * length K) (w := w);
          [eapply calm_less; [|exact Hcalm]; lia|reflexivity|cbn; lia].
      - exact Hflags.
      - cbn [view]. fold K.
        apply calm_shift with (k := 3 + 2 * length E) (w := w);
          [eapply calm_less; [|exact Hcalm]; lia|reflexivity|reflexivity]. }
  rewrite Rollback_done by (cbn; discriminate).
  cbn. repeat rewrite <- app_assoc. repeat split; reflexivity.
Qed.

(** X5: when the product exists, is in stock and the store calls up to the
    update succeed, a failure of the update ([k] = 0) or of the commit
    ([k] = 1) is the error SellProduct returns; nothing is committed and
    the persisted tables are as before. *)
Theorem SellProduct_returns_write_failure (productName : string) (w : World) k e :
  Forall (fun flag => flag <> 0%Z) (rows_productExist productName (persisted w)) ->
  Forall (fun flag => flag = 0%Z) (rows_inStock productName (persisted w)) ->
  k < 2 ->
  calm (5 + 2 * length (rows_productExist productName (persisted w))
          + 2 * length (rows_inStock productName (persisted w)) + k) w ->
  faults w (clock w
            + (5 + 2 * length (rows_productExist productName (persisted w))
               + 2 * length (rows_inStock productName (persisted w)) + k))
    = Some e ->
  snd (sell productName w) = Some e /\
  persisted (fst (sell productName w)) = persisted w /\
  status (fst (sell productName w)) <> Committed.
Proof.
  intros Hexists Hflags Hk Hcalm Hfail.
  set (E := rows_productExist productName (persisted w)) in *.
  set (K := rows_inStock productName (persisted w)) in *.
  rewrite (SellProduct_reaches_stock_check _ _ _ productName w Hexists)
    by (eapply calm_less; [|exact Hcalm]; fold E; lia).
  fold E.
  match goal with
  | |- context [defer Rollback ?body ?w3] =>
      assert (Hrun : body w3 =
                sellUpdate exec_updateSaleInfo productName
                  (mkWorld (persisted w) (persisted w) Active
                     (5 + 2 * length E + 2 * length K + clock w) (faults w)
                     (journal w3 ++ [CallQuery inStock [productName]])))
  end.
  { rewrite sellStockCheck_pass.
    - cbn [persisted view status clock faults journal]. fold K.
      f_equal. f_equal. lia.
    - exact Hflags.
    - cbn [view]. fold K.
      apply calm_shift with (k := 3 + 2 * length E) (w := w);
        [eapply calm_less; [|exact Hcalm]; lia|reflexivity|reflexivity]. }
  match type of Hrun with
  | _ = sellUpdate _ _ ?w4 =>
      destruct (sellUpdate_fails exec_updateSaleInfo productName w4 k e Hk)
        as (H1 & H2 & H3);
        [apply calm_shift with (k := 5 + 2 * length E + 2 * length K) (w := w);
           [eapply calm_less; [|exact Hcalm]; lia|reflexivity|reflexivity]
        |cbn; rewrite <- Hfail; f_equal; lia
        |reflexivity
        |destruct (sellUpdate exec_updateSaleInfo productName w4) as [w5 r] eqn:E5]
  end.
  cbn [fst snd] in H1, H2, H3. rewrite (defer_of _ _ _ _ _ Hrun).
  destruct (Rollback_frame w5) as [Hp Hs].
  cbn [fst snd]. split; [exact H1|]. split; [rewrite Hp; exact H2|exact (Hs H3)].
Qed.

(** X6: SellProduct never reads [rows.Err()]. When the first Next over the
    product-exists rows fails, the loop ends without a flag being looked at:
    if the product is in stock and the other store calls succeed the sale
    is committed and nil returned, whatever the product-exists flag. *)
Theorem SellProduct_skips_existence_check (productName : string) (w : World) e :
  faults w (clock w) = None ->
  faults w (S (clock w)) = None ->
  faults w (S (S (clock w))) = Some e ->
  Forall (fun flag => flag = 0%Z) (rows_inStock productName (persisted w)) ->
  calm (4 + 2 * length (rows_inStock productName (persisted w)))
    (advance 3 w) ->
  snd (sell productName w) = None /\
  status (fst (sell productName w)) = Committed /\
  persisted (fst (sell productName w))
    = exec_updateSaleInfo productName (persisted w).
Proof.
  intros H0 H1 H2 Hflags Hcalm. unfold SellProduct.
  set (K := rows_inStock productName (persisted w)) in *.
  run_ok H0. unfold defer. run_ok H1.
  match goal with
  | |- context [bind (forRows ?rows ?f ?b ?s) _ ?w2] =>
      rewrite (bind_of (forRows_next_fails rows f b s w2 e H2))
  end.
  flatten. run_ok (calm_now Hcalm). fold K.
  match goal with
  | |- context [bind (forRows K ?f ?b ?s) _ ?w4] =>
      rewrite (bind_of (@forRows_pass (fun flag => negb (flag =? 0)%Z)
                          OutOfStockError K s w4
                          ltac:(eapply Forall_impl; [|exact Hflags];
                                cbv beta; intros a Ha; subst a; reflexivity)
                          ltac:(apply calm_shift with (k := 1) (w := advance 3 w);
                                [eapply calm_less; [|exact Hcalm]; lia
                                |reflexivity|reflexivity])))
  end.
  flatten.
  assert (Hexec : faults w (2 * length K + 1 + S (S (S (S (clock w))))) = None).
  { specialize (Hcalm (2 * length K + 2)). cbn in Hcalm. rewrite <- Hcalm by lia.
    f_equal. lia. }
  run_ok Hexec.
  assert (Hcommit : faults w (S (2 * length K + 1 + S (S (S (S (clock w)))))) = None).
  { specialize (Hcalm (2 * length K + 3)). cbn in Hcalm. rewrite <- Hcalm by lia.
    f_equal. lia. }
  run_ok Hcommit. run_rollback. cbn. repeat split; reflexivity.
Qed.

(** X7: whatever the store does, SellProduct changes the persisted tables
    only by a committed transaction, which holds exactly the change of the
    update statement and is reported by a nil return; an error returned
    means that nothing was committed and the tables are as before. *)
Theorem SellProduct_changes_only_on_commit (productName : string) (w : World) :
  (status (fst (sell productName w)) = Committed ->
   snd (sell productName w) = None /\
   persisted (fst (sell productName w))
     = exec_updateSaleInfo productName (persisted w)) /\
  (status (fst (sell productName w)) <> Committed ->
   persisted (fst (sell productName w)) = persisted w) /\
  (snd (sell productName w) <> None ->
   status (fst (sell productName w)) <> Committed /\
   persisted (fst (sell productName w)) = persisted w).
Proof.
  assert (Hcases :
    (persisted (fst (sell productName w)) = persisted w /\
     status (fst (sell productName w)) <> Committed) \/
    (persisted (fst (sell productName w))
       = exec_updateSaleInfo productName (persisted w) /\
     status (fst (sell productName w)) = Committed /\
     snd (sell productName w) = None)).
  { unfold SellProduct.
    destruct (faults w (clock w)) eqn:F0;
      [run_fail F0; left; split; [reflexivity|cbn; discriminate]|].
    run_ok F0. unfold defer.
    destruct (faults w (S (clock w))) eqn:F1;
      [run_fail F1; run_rollback; left; split; [reflexivity|cbn; discriminate]|].
    run_ok F1.
    match goal with
    | |- context [bind (forRows ?rows ?f ?b ?s) _ ?w2] =>
        destruct (@forRows_frame (fun flag => (flag =? 0)%Z) ProductNotFoundError
                    rows s w2) as [k1 Hk1];
        destruct (forRows rows f b s w2) as [w3 r] eqn:E1
    end.
    cbn [fst] in Hk1. subst w3. rewrite (bind_of E1).
    destruct r as [[err lasterr]|v];
      [|run_rollback; left; split; [reflexivity|cbn; discriminate]].
    flatten.
    match goal with
    | |- context [bind (Query _ _ _) _ ?w3] =>
        destruct (faults w3 (clock w3)) eqn:F2;
          [run_fail F2; run_rollback; left; split; [reflexivity|cbn; discriminate]
          |run_ok F2]
    end.
    match goal with
    | |- context [bind (forRows ?rows ?f ?b ?s) _ ?w4] =>
        destruct (@forRows_frame (fun flag => negb (flag =? 0)%Z) OutOfStockError
                    rows s w4) as [k2 Hk2];
        destruct (forRows rows f b s w4) as [w5 r] eqn:E2
    end.
    cbn [fst] in Hk2. subst w5. rewrite (bind_of E2).
    destruct r as [[err2 lasterr2]|v];
      [|run_rollback; left; split; [reflexivity|cbn; discriminate]].
    flatten.
    match goal with
    | |- context [bind (ExecContext _ _ _) _ ?w5] =>
        destruct (faults w5 (clock w5)) eqn:F3;
          [run_fail F3; run_rollback; run_rollback; left;
           split; [reflexivity|cbn; discriminate]
          |run_ok F3]
    end.
    match goal with
    | |- context [bind Commit _ ?w6] =>
        destruct (faults w6 (clock w6)) eqn:F4;
          [run_fail F4; run_rollback; run_rollback; left;
           split; [reflexivity|cbn; discriminate]
          |run_ok F4]
    end.
    run_rollback. right. cbn. repeat split; reflexivity. }
  destruct Hcases as [[Hp Hs]|(Hp & Hs & Hr)].
  - split; [intros H; destruct (Hs H)|].
    split; [intros _; exact Hp|intros _; split; assumption].
  - split; [intros _; split; assumption|].
    split; [intros H; destruct (H Hs)|intros H; destruct (H Hr)].
Qed.

End SellingOutcomes.

(** ** The uploads, path by path *)

Section UploadPaths.

Variable exec_insertProduct : string -> string -> string -> DB -> DB.
Variable exec_insertStock : string -> string -> string -> DB -> DB.

Local Abbreviation uploadInventory := (UploadInventory exec_insertStock).
Local Abbreviation uploadProducts := (UploadProducts exec_insertProduct).

Lemma UploadInventory_run_ok inventoryToInsert w :
  calm (2 + length (data.Inventory_ inventoryToInsert)) w ->
  uploadInventory inventoryToInsert w =
  (mkWorld
     (withInventory exec_insertStock (data.Inventory_ inventoryToInsert) (persisted w))
     (withInventory exec_insertStock (data.Inventory_ inventoryToInsert) (persisted w))
     Committed (2 + length (data.Inventory_ inventoryToInsert) + clock w) (faults w)
     (journal w ++ CallBeginTx
        :: map callOf (map (stockInsert exec_insertStock)
                         (data.Inventory_ inventoryToInsert))
        ++ [CallCommit]),
   (None, len (data.Inventory_ inventoryToInsert))).
Proof.
  intros Hcalm. unfold UploadInventory.
  run_ok (calm_now Hcalm). rewrite bind_insertStocks.
  match goal with
  | |- context [bind (execAll ?l) _ ?w1] =>
      assert (Hc1 : calm (length l) w1)
        by (rewrite length_map; apply calm_shift with (k := 1) (w := w);
            [eapply calm_less; [|exact Hcalm]; lia|reflexivity|reflexivity]);
      rewrite (bind_of (@execAll_ok l w1 Hc1))
  end.
  cbv beta iota. rewrite length_map.
  cbn [persisted view status clock faults journal].
  assert (Hf : faults w (length (data.Inventory_ inventoryToInsert) + S (clock w))
               = None).
  { specialize (Hcalm (1 + length (data.Inventory_ inventoryToInsert))).
    rewrite <- Hcalm by lia. f_equal. lia. }
  run_ok Hf. unfold ret. rewrite applyAll_stockInsert.
  f_equal. f_equal; [lia|].
  repeat rewrite <- app_assoc. reflexivity.
Qed.

Lemma UploadProducts_run_ok product w :
  calm (2 + compositionRows (data.Products_ product)) w ->
  uploadProducts product w =
  (mkWorld
     (withProducts exec_insertProduct (data.Products_ product) (persisted w))
     (withProducts exec_insertProduct (data.Products_ product) (persisted w))
     Committed (2 + compositionRows (data.Products_ product) + clock w) (faults w)
     (journal w ++ CallBeginTx
        :: map callOf (productInserts exec_insertProduct (data.Products_ product))
        ++ [CallCommit]),
   (None, len (data.Products_ product))).
Proof.
  intros Hcalm. unfold UploadProducts.
  run_ok (calm_now Hcalm). rewrite bind_insertProducts.
  match goal with
  | |- context [bind (execAll ?l) _ ?w1] =>
      assert (Hc1 : calm (length l) w1)
        by (rewrite length_productInserts;
            apply calm_shift with (k := 1) (w := w);
            [eapply calm_less; [|exact Hcalm]; lia|reflexivity|reflexivity]);
      rewrite (bind_of (@execAll_ok l w1 Hc1))
  end.
  cbv beta iota. rewrite length_productInserts.
  cbn [persisted view status clock faults journal].
  assert (Hf : faults w (compositionRows (data.Products_ product) + S (clock w))
               = None).
  { specialize (Hcalm (1 + compositionRows (data.Products_ product))).
    rewrite <- Hcalm by lia. f_equal. lia. }
  run_ok Hf. unfold ret. rewrite applyAll_productInserts.
  f_equal. f_equal; [lia|].
  repeat rewrite <- app_assoc. reflexivity.
Qed.

Lemma UploadInventory_run_commit_fails inventoryToInsert w e :
  calm (1 + length (data.Inventory_ inventoryToInsert)) w ->
  faults w (clock w + (1 + length (data.Inventory_ inventoryToInsert))) = Some e ->
  snd (uploadInventory inventoryToInsert w) = (None, 0%Z) /\
  persisted (fst (uploadInventory inventoryToInsert w)) = persisted w.
Proof.
  intros Hcalm Hfail. unfold UploadInventory.
  run_ok (calm_now Hcalm). rewrite bind_insertStocks.
  match goal with
  | |- context [bind (execAll ?l) _ ?w1] =>
      assert (Hc1 : calm (length l) w1)
        by (rewrite length_map; apply calm_shift with (k := 1) (w := w);
            [exact Hcalm|reflexivity|reflexivity]);
      rewrite (bind_of (@execAll_ok l w1 Hc1))
  end.
  cbv beta iota. rewrite length_map.
  cbn [persisted view status clock faults journal].
  assert (Hf : faults w (length (data.Inventory_ inventoryToInsert) + S (clock w))
               = Some e) by (rewrite <- Hfail; f_equal; lia).
  run_fail Hf. run_rollback. cbn. auto.
Qed.

Lemma UploadProducts_run_commit_fails product w e :
  calm (1 + compositionRows (data.Products_ product)) w ->
  faults w (clock w + (1 + compositionRows (data.Products_ product))) = Some e ->
  snd (uploadProducts product w) = (None, len (data.Products_ product)) /\
  persisted (fst (uploadProducts product w)) = persisted w.
Proof.
  intros Hcalm Hfail. unfold UploadProducts.
  run_ok (calm_now Hcalm). rewrite bind_insertProducts.
  match goal with
  | |- context [bind (execAll ?l) _ ?w1] =>
      assert (Hc1 : calm (length l) w1)
        by (rewrite length_productInserts;
            apply calm_shift with (k := 1) (w := w);
            [exact Hcalm|reflexivity|reflexivity]);
      rewrite (bind_of (@execAll_ok l w1 Hc1))
  end.
  cbv beta iota. rewrite length_productInserts.
  cbn [persisted view status clock faults journal].
  assert (Hf : faults w (compositionRows (data.Products_ product) + S (clock w))
               = Some e) by (rewrite <- Hfail; f_equal; lia).
  run_fail Hf. run_rollback. cbn. auto.
Qed.

(** X8: when no store call fails, UploadInventory commits: it returns nil
    with the number of records, every record of the batch is persisted, and
    the calls issued are BeginTx, one insert per record in the order of the
    batch, and Commit. An empty batch is a committed transaction with no
    insert and count 0. *)
Theorem UploadInventory_commits_when_calm inventoryToInsert w :
  calm (2 + length (data.Inventory_ inventoryToInsert)) w ->
  snd (uploadInventory inventoryToInsert w)
    = (None, len (data.Inventory_ inventoryToInsert)) /\
  status (fst (uploadInventory inventoryToInsert w)) = Committed /\
  persisted (fst (uploadInventory inventoryToInsert w))
    = withInventory exec_insertStock (data.Inventory_ inventoryToInsert) (persisted w) /\
  journal (fst (uploadInventory inventoryToInsert w))
    = journal w ++ CallBeginTx
        :: map (fun r => CallExec insertStock
                           [data.Stock_ArtId r; data.Stock_Name r; data.Stock_Stock r])
             (data.Inventory_ inventoryToInsert)
        ++ [CallCommit] /\
  (data.Inventory_ inventoryToInsert = [] ->
   snd (uploadInventory inventoryToInsert w) = (None, 0%Z) /\
   journal (fst (uploadInventory inventoryToInsert w))
     = journal w ++ [CallBeginTx; CallCommit]).
Proof.
  intros Hcalm. rewrite (UploadInventory_run_ok inventoryToInsert w Hcalm).
  cbn [fst snd persisted status journal]. rewrite map_map.
  repeat split; try reflexivity;
    match goal with H : _ = [] |- _ => rewrite H; reflexivity end.
Qed.

(** X9: when no store call fails, UploadProducts commits: it returns nil
    with the number of products, every composition row of the batch is
    persisted, and the inserts are issued product by product and, within a
    product, in the order of its composition entries. *)
Theorem UploadProducts_commits_when_calm product w :
  calm (2 + compositionRows (data.Products_ product)) w ->
  snd (uploadProducts product w) = (None, len (data.Products_ product)) /\
  status (fst (uploadProducts product w)) = Committed /\
  persisted (fst (uploadProducts product w))
    = withProducts exec_insertProduct (data.Products_ product) (persisted w) /\
  journal (fst (uploadProducts product w))
    = journal w ++ CallBeginTx
        :: flat_map
             (fun p =>
                map (fun c => CallExec insertProduct
                                [data.Name p; data.ArtId c; data.AmountOf c])
                  (data.ContainArticles p))
             (data.Products_ product)
        ++ [CallCommit].
Proof.
  intros Hcalm. rewrite (UploadProducts_run_ok product w Hcalm).
  cbn [fst snd persisted status journal].
  assert (Hcalls :
    map callOf (productInserts exec_insertProduct (data.Products_ product)) =
    flat_map
      (fun p =>
         map (fun c => CallExec insertProduct
                         [data.Name p; data.ArtId c; data.AmountOf c])
           (data.ContainArticles p))
      (data.Products_ product)).
  { unfold productInserts. generalize (data.Products_ product). intros l.
    induction l as [|p rest IH]; [reflexivity|].
    cbn [flat_map]. rewrite map_app, map_map, IH. reflexivity. }
  rewrite Hcalls. repeat split; reflexivity.
Qed.

(** X10: two uploads of stock in a row, with no store call failing, leave
    persisted what a single upload of the two batches joined leaves, and
    their counts add up to its count. *)
Theorem UploadInventory_twice first second w :
  calm (4 + length first + length second) w ->
  snd (uploadInventory (data.mkInventory first) w) = (None, len first) /\
  snd (uploadInventory (data.mkInventory second)
         (fst (uploadInventory (data.mkInventory first) w))) = (None, len second) /\
  persisted (fst (uploadInventory (data.mkInventory second)
                    (fst (uploadInventory (data.mkInventory first) w))))
    = persisted (fst (uploadInventory (data.mkInventory (first ++ second)) w)) /\
  snd (uploadInventory (data.mkInventory (first ++ second)) w)
    = (None, (len first + len second)%Z).
Proof.
  intros Hcalm.
  rewrite (UploadInventory_run_ok (data.mkInventory first) w)
    by (eapply calm_less; [|exact Hcalm]; cbn; lia).
  rewrite (UploadInventory_run_ok (data.mkInventory (first ++ second)) w)
    by (eapply calm_less; [|exact Hcalm]; cbn; rewrite length_app; lia).
  cbn [fst snd data.Inventory_].
  rewrite UploadInventory_run_ok
    by (cbn [data.Inventory_];
        apply calm_shift with (k := 2 + length first) (w := w);
        [eapply calm_less; [|exact Hcalm]; lia|reflexivity|reflexivity]).
  cbn [fst snd persisted data.Inventory_].
  repeat split.
  - unfold withInventory. rewrite fold_left_app. reflexivity.
  - unfold len. rewrite length_app, Nat2Z.inj_add. reflexivity.
Qed.

End UploadPaths.

(** ** The refusals of SellProduct, as runs *)

Section SellingRefusals.

Variable rows_productExist : string -> DB -> list Z.
Variable rows_inStock : string -> DB -> list Z.
Variable exec_updateSaleInfo : string -> DB -> DB.

Local Abbreviation sell :=
  (SellProduct rows_productExist rows_inStock exec_updateSaleInfo).

Lemma SellProduct_run_not_found productName w :
  Exists (fun flag => flag = 0%Z) (rows_productExist productName (persisted w)) ->
  calm (2 + 2 * length (rows_productExist productName (persisted w))) w ->
  snd (sell productName w) = Some ProductNotFoundError /\
  persisted (fst (sell productName w)) = persisted w.
Proof.
  intros Hzero Hcalm. unfold SellProduct.
  run_ok (calm_now Hcalm). unfold defer. run_ok (calm_second Hcalm).
  match goal with
  | |- context [bind (forRows ?rows ?f ?b ?s) _ ?w2] =>
      destruct (@forRows_block (fun flag => (flag =? 0)%Z) ProductNotFoundError
                  rows s w2) as [k Hk]
  end.
  - eapply Exists_impl; [|exact Hzero]. intros a Ha. cbv beta in *. subst.
    reflexivity.
  - apply calm_shift with (k := 2) (w := w); [exact Hcalm|reflexivity|reflexivity].
  - rewrite (bind_of Hk). run_rollback. cbn. split; reflexivity.
Qed.

Lemma SellProduct_run_out_of_stock productName w :
  Forall (fun flag => flag <> 0%Z) (rows_productExist productName (persisted w)) ->
  Exists (fun flag => flag <> 0%Z) (rows_inStock productName (persisted w)) ->
  calm (4 + 2 * length (rows_productExist productName (persisted w))
          + 2 * length (rows_inStock productName (persisted w))) w ->
  snd (sell productName w) = Some OutOfStockError /\
  persisted (fst (sell productName w)) = persisted w.
Proof.
  intros Hexists Hflag Hcalm.
  set (E := rows_productExist productName (persisted w)) in *.
  set (K := rows_inStock productName (persisted w)) in *.
  rewrite (SellProduct_reaches_stock_check _ _ _ productName w Hexists)
    by (eapply calm_less; [|exact Hcalm]; fold E; lia).
  fold E. unfold defer, sellStockCheck.
  match goal with
  | |- context [bind (bind (Query _ _ _) _) _ ?w3] =>
      assert (Hc3 : calm (1 + 2 * length K) w3)
        by (apply calm_shift with (k := 3 + 2 * length E) (w := w);
            [eapply calm_less; [|exact Hcalm]; lia|reflexivity|reflexivity])
  end.
  run_ok (calm_now Hc3). fold K.
  match goal with
  | |- context [bind (forRows K ?f ?b ?s) _ ?w4] =>
      destruct (@forRows_block (fun flag => negb (flag =? 0)%Z) OutOfStockError
                  K s w4) as [k Hk]
  end.
  - eapply Exists_impl; [|exact Hflag]. cbv beta. intros a Ha.
    apply negb_true_iff, Z.eqb_neq. exact Ha.
  - eapply calm_shift with (k := 1); [exact Hc3|reflexivity|reflexivity].
  - rewrite (bind_of Hk). run_rollback. cbn. split; reflexivity.
Qed.

Lemma SellProduct_run_sold productName w :
  Forall (fun flag => flag <> 0%Z) (rows_productExist productName (persisted w)) ->
  Forall (fun flag => flag = 0%Z) (rows_inStock productName (persisted w)) ->
  calm (7 + 2 * length (rows_productExist productName (persisted w))
          + 2 * length (rows_inStock productName (persisted w))) w ->
  snd (sell productName w) = None /\
  persisted (fst (sell productName w))
    = exec_updateSaleInfo productName (persisted w).
Proof.
  intros Hexists Hflags Hcalm.
  set (E := rows_productExist productName (persisted w)) in *.
  set (K := rows_inStock productName (persisted w)) in *.
  rewrite (SellProduct_reaches_stock_check _ _ _ productName w Hexists)
    by (eapply calm_less; [|exact Hcalm]; fold E; lia).
  fold E.
  erewrite defer_of.
  2:{ rewrite sellStockCheck_pass.
      - apply sellUpdate_ok.
        cbn [view]. fold K.
        apply calm_shift with (k := 5 + 2 * length E + 2 * length K) (w := w);
          [eapply calm_less; [|exact Hcalm]; lia|reflexivity|cbn; lia].
      - exact Hflags.
      - cbn [view]. fold K.
        apply calm_shift with (k := 3 + 2 * length E) (w := w);
          [eapply calm_less; [|exact Hcalm]; lia|reflexivity|reflexivity]. }
  rewrite Rollback_done by (cbn; discriminate).
  cbn. split; reflexivity.
Qed.

End SellingRefusals.

(** ** Every operation when the transaction cannot be opened *)

(** X11: when BeginTx fails, each of the five operations of PInventoryDB
    returns that error with an empty payload (no rows, count 0); nothing
    but BeginTx is issued, no transaction is left and the persisted tables
    are as before. *)
Theorem operations_end_when_BeginTx_fails
    (qs : QuerySet) (product : data.Products) (inventoryToInsert : data.Inventory)
    (productName : string) (w : World) (e : error) :
  faults w (clock w) = Some e ->
  let refused :=
    mkWorld (persisted w) (persisted w) NoTx (S (clock w)) (faults w)
      (journal w ++ [CallBeginTx]) in
  db.GetInventory (PInventoryDB qs) w = (refused, (Some e, [])) /\
  db.GetProductStock (PInventoryDB qs) w = (refused, (Some e, [])) /\
  db.UploadProducts (PInventoryDB qs) product w = (refused, (Some e, 0%Z)) /\
  db.UploadInventory (PInventoryDB qs) inventoryToInsert w = (refused, (Some e, 0%Z)) /\
  db.SellProduct (PInventoryDB qs) productName w = (refused, Some e).
Proof.
  intros Hfail refused. subst refused.
  cbn [PInventoryDB db.GetInventory db.GetProductStock db.UploadProducts
       db.UploadInventory db.SellProduct].
  unfold GetInventory, GetProductStock, UploadProducts, UploadInventory, SellProduct.
  repeat split; run_fail Hfail; reflexivity.
Qed.

(** ** The handlers of the server on PInventoryDB *)

Section Handlers.

Variable qs : QuerySet.

Local Abbreviation server := (PInventoryDB qs).
Local Abbreviation sell :=
  (SellProduct (sel_productExist qs) (sel_inStock qs) (upd_updateSaleInfo qs)).

Lemma sellProduct_of_engine productName w :
  api.sellProduct server productName w =
  (fst (sell productName w),
   match snd (sell productName w) with
   | Some e => api.failure api.StatusBadRequest (Error e)
   | None => (api.StatusOK, inr (soldMessage productName))
   end).
Proof.
  unfold api.sellProduct, bind. cbn [PInventoryDB db.SellProduct].
  destruct (SellProduct _ _ _ productName w) as [w1 [e|]]; reflexivity.
Qed.

Lemma getProductStock_of_engine w :
  api.getProductStock server w =
  (fst (GetProductStock (sel_getProductStock qs) w),
   match snd (GetProductStock (sel_getProductStock qs) w) with
   | (Some e, _) => api.failure api.StatusNotFound (Error e)
   | (None, stocks) =>
       (api.StatusOK,
        inr (if (len stocks =? 0)%Z
             then api.mkResponseProduct "No product in stock" [] []
             else api.mkResponseProduct "" [] stocks))
   end).
Proof.
  unfold api.getProductStock, bind. cbn [PInventoryDB db.GetProductStock].
  destruct (GetProductStock _ w) as [w1 [[e|] stocks]]; reflexivity.
Qed.

Lemma getInventory_of_engine w :
  api.getInventory server w =
  (fst (GetInventory (tag_getInventory qs) (sel_getInventory qs) w),
   match snd (GetInventory (tag_getInventory qs) (sel_getInventory qs) w) with
   | (Some e, _) => api.failure api.StatusNotFound (Error e)
   | (None, stocks) => (api.StatusOK, inr (api.mkResponseProduct "" stocks []))
   end).
Proof.
  unfold api.getInventory, bind. cbn [PInventoryDB db.GetInventory].
  destruct (GetInventory _ _ w) as [w1 [[e|] stocks]]; reflexivity.
Qed.

Lemma uploadInventory_of_engine inventory w :
  api.uploadInventory server (inr inventory) w =
  (fst (UploadInventory (ins_insertStock qs) inventory w),
   match snd (UploadInventory (ins_insertStock qs) inventory w) with
   | (Some e, _) => api.failure api.StatusBadRequest (Error e)
   | (None, n) =>
       (api.StatusOK,
        inr (api.mkResponseProduct (api.Sprintf_d n ++ " item inserted") [] []))
   end).
Proof.
  unfold api.uploadInventory, bind. cbn [PInventoryDB db.UploadInventory].
  destruct (UploadInventory _ inventory w) as [w1 [[e|] n]]; reflexivity.
Qed.

Lemma uploadProducts_of_engine products w :
  api.uploadProducts server (inr products) w =
  (fst (UploadProducts (ins_insertProduct qs) products w),
   match snd (UploadProducts (ins_insertProduct qs) products w) with
   | (Some e, _) => api.failure api.StatusBadRequest (Error e)
   | (None, n) =>
       (api.StatusOK,
        inr (api.mkResponseProduct (api.Sprintf_d n ++ " product inserted") [] []))
   end).
Proof.
  unfold api.uploadProducts, bind. cbn [PInventoryDB db.UploadProducts].
  destruct (UploadProducts _ products w) as [w1 [[e|] n]]; reflexivity.
Qed.

(** X12: what the sellProduct handler answers on the three paths of a sale
    where no store call fails. A product whose product-exists flag is zero:
    status 400 with "this product is not in system, cannot be sold". A
    product that exists with a non-zero product-in-stock flag: status 400
    with "this product is not in stock, cannot be sold". In both the
    persisted tables are as before. A product that exists and is in stock:
    status 200 with "Product <name> is sold and inventory is updated
    accordingly", and the update is persisted. *)
Theorem sellProduct_answers productName w :
  (Exists (fun flag => flag = 0%Z) (sel_productExist qs productName (persisted w)) ->
   calm (2 + 2 * length (sel_productExist qs productName (persisted w))) w ->
   snd (api.sellProduct server productName w)
     = api.failure 400 "this product is not in system, cannot be sold" /\
   persisted (fst (api.sellProduct server productName w)) = persisted w) /\
  (Forall (fun flag => flag <> 0%Z) (sel_productExist qs productName (persisted w)) ->
   Exists (fun flag => flag <> 0%Z) (sel_inStock qs productName (persisted w)) ->
   calm (4 + 2 * length (sel_productExist qs productName (persisted w))
           + 2 * length (sel_inStock qs productName (persisted w))) w ->
   snd (api.sellProduct server productName w)
     = api.failure 400 "this product is not in stock, cannot be sold" /\
   persisted (fst (api.sellProduct server productName w)) = persisted w) /\
  (Forall (fun flag => flag <> 0%Z) (sel_productExist qs productName (persisted w)) ->
   Forall (fun flag => flag = 0%Z) (sel_inStock qs productName (persisted w)) ->
   calm (7 + 2 * length (sel_productExist qs productName (persisted w))
           + 2 * length (sel_inStock qs productName (persisted w))) w ->
   snd (api.sellProduct server productName w)
     = (200%Z, inr (soldMessage productName)) /\
   persisted (fst (api.sellProduct server productName w))
     = upd_updateSaleInfo qs productName (persisted w)).
Proof.
  rewrite sellProduct_of_engine. cbn [fst snd].
  split; [|split].
  - intros Hzero Hcalm.
    destruct (SellProduct_run_not_found (sel_productExist qs) (sel_inStock qs)
                (upd_updateSaleInfo qs) productName w Hzero Hcalm) as [Hr Hp].
    rewrite Hr, Hp. split; reflexivity.
  - intros Hexists Hflag Hcalm.
    destruct (SellProduct_run_out_of_stock (sel_productExist qs) (sel_inStock qs)
                (upd_updateSaleInfo qs) productName w Hexists Hflag Hcalm)
      as [Hr Hp].
    rewrite Hr, Hp. split; reflexivity.
  - intros Hexists Hflags Hcalm.
    destruct (SellProduct_run_sold (sel_productExist qs) (sel_inStock qs)
                (upd_updateSaleInfo qs) productName w Hexists Hflags Hcalm)
      as [Hr Hp].
    rewrite Hr, Hp. split; reflexivity.
Qed.

(** X13: when the product-exists query of a sale fails, the sellProduct
    handler answers status 200 with "Product <name> is sold and inventory
    is updated accordingly" although the transaction was rolled back and
    the persisted tables are as before. *)
Theorem sellProduct_says_sold_when_query_fails productName w e :
  faults w (clock w) = None ->
  faults w (S (clock w)) = Some e ->
  snd (api.sellProduct server productName w)
    = (200%Z, inr (soldMessage productName)) /\
  status (fst (api.sellProduct server productName w)) = RolledBack /\
  persisted (fst (api.sellProduct server productName w)) = persisted w.
Proof.
  intros H0 H1. rewrite sellProduct_of_engine. cbn [fst snd].
  destruct (SellProduct_exist_query_fails (sel_productExist qs) (sel_inStock qs)
                (upd_updateSaleInfo qs) productName w e H0 H1)
    as (Hr & Hs & Hp).
  rewrite Hr, Hs, Hp. repeat split; reflexivity.
Qed.

(** X14: what the two listing handlers answer when no store call fails.
    getProductStock answers status 200 with the rows GetProductStock keeps
    and no message, or, when it keeps none, with the message "No product
    in stock" and no rows. getInventory answers status 200 with every stock
    record and no message, also when there is no record at all. *)
Theorem listing_handlers_answer w :
  (calm (3 + 2 * length (sel_getProductStock qs (persisted w))) w ->
   snd (api.getProductStock server w) =
     (200%Z,
      inr (match available (sel_getProductStock qs (persisted w)) with
           | [] => api.mkResponseProduct "No product in stock" [] []
           | stocks => api.mkResponseProduct "" [] stocks
           end))) /\
  (calm (3 + 2 * length (sel_getInventory qs (persisted w))) w ->
   snd (api.getInventory server w) =
     (200%Z,
      inr (api.mkResponseProduct "" (stocksOf (sel_getInventory qs (persisted w))) []))).
Proof.
  split; intros Hcalm.
  - rewrite getProductStock_of_engine. cbn [fst snd].
    destruct (GetProductStock_available _ w Hcalm) as (Hr & _ & _).
    rewrite Hr. destruct (available _); reflexivity.
  - rewrite getInventory_of_engine. cbn [fst snd].
    change (GetInventory (tag_getInventory qs) (sel_getInventory qs))
      with (readRows (tag_getInventory qs) (sel_getInventory qs) appendStock).
    rewrite (readRows_calm _ _ _ _ appendStock_step w Hcalm).
    cbn [fst snd]. rewrite gathered_stocks. reflexivity.
Qed.

(** X15: when a store call fails during a listing, its handler answers
    status 404 with the text of that failure, the first to occur. *)
Theorem listing_handlers_answer_not_found w k e :
  calm k w ->
  faults w (clock w + k) = Some e ->
  (k < 3 + 2 * length (sel_getProductStock qs (persisted w)) ->
   snd (api.getProductStock server w) = api.failure 404 (Error e)) /\
  (k < 3 + 2 * length (sel_getInventory qs (persisted w)) ->
   snd (api.getInventory server w) = api.failure 404 (Error e)).
Proof.
  intros Hcalm Hfail. split; intros Hk.
  - rewrite getProductStock_of_engine. cbn [fst snd].
    destruct (readRows_first_failure getProductStock (sel_getProductStock qs) _ _
                keepAvailable_step w k e Hk Hcalm Hfail) as (Hr & _ & _).
    change (readRows getProductStock (sel_getProductStock qs) keepAvailable)
      with (GetProductStock (sel_getProductStock qs)) in Hr.
    unfold data.ProductStocks in *. rewrite Hr. reflexivity.
  - rewrite getInventory_of_engine. cbn [fst snd].
    destruct (readRows_first_failure (tag_getInventory qs) (sel_getInventory qs) _ _
                appendStock_step w k e Hk Hcalm Hfail) as (Hr & _ & _).
    change (readRows (tag_getInventory qs) (sel_getInventory qs) appendStock)
      with (GetInventory (tag_getInventory qs) (sel_getInventory qs)) in Hr.
    rewrite Hr. reflexivity.
Qed.

(** X16: what the uploadInventory handler answers. A body that cannot be
    read or decoded: status 400 with the text of that error, and no store
    call. A batch committed: status 200 with "<number of records> item
    inserted", every record persisted. A batch whose commit fails: status
    200 with "0 item inserted", nothing persisted. A batch one of whose
    inserts fails: status 400 with the text of the failure, nothing
    persisted. *)
Theorem uploadInventory_answers inventory w :
  (forall message,
      api.uploadInventory server (inl message) w = (w, api.failure 400 message)) /\
  (calm (2 + length (data.Inventory_ inventory)) w ->
   snd (api.uploadInventory server (inr inventory) w) =
     (200%Z,
      inr (api.mkResponseProduct
             (api.Sprintf_d (len (data.Inventory_ inventory)) ++ " item inserted")
             [] [])) /\
   persisted (fst (api.uploadInventory server (inr inventory) w))
     = withInventory (ins_insertStock qs) (data.Inventory_ inventory) (persisted w)) /\
  (forall e,
      calm (1 + length (data.Inventory_ inventory)) w ->
      faults w (clock w + (1 + length (data.Inventory_ inventory))) = Some e ->
      snd (api.uploadInventory server (inr inventory) w) =
        (200%Z, inr (api.mkResponseProduct "0 item inserted" [] [])) /\
      persisted (fst (api.uploadInventory server (inr inventory) w)) = persisted w) /\
  (forall k e,
      k < length (data.Inventory_ inventory) ->
      calm (1 + k) w ->
      faults w (clock w + (1 + k)) = Some e ->
      snd (api.uploadInventory server (inr inventory) w) = api.failure 400 (Error e) /\
      persisted (fst (api.uploadInventory server (inr inventory) w)) = persisted w).
Proof.
  split; [reflexivity|]. rewrite uploadInventory_of_engine. cbn [fst snd].
  split; [|split].
  - intros Hcalm. rewrite (UploadInventory_run_ok (ins_insertStock qs) inventory w Hcalm).
    split; reflexivity.
  - intros e Hcalm Hfail.
    destruct (UploadInventory_run_commit_fails (ins_insertStock qs) inventory w e Hcalm Hfail)
      as [Hr Hp].
    rewrite Hr, Hp. split; reflexivity.
  - intros k e Hk Hcalm Hfail.
    destruct (UploadInventory_insert_fails (ins_insertStock qs) inventory w k e Hk Hcalm Hfail)
      as (Hr & _ & Hp).
    rewrite Hr, Hp. split; reflexivity.
Qed.

(** X17: what the uploadProducts handler answers. A body that cannot be
    read or decoded: status 400 with the text of that error, and no store
    call. A batch committed: status 200 with "<number of products> product
    inserted", every composition row persisted. A batch whose commit fails:
    the same status 200 and message, although nothing is persisted. A batch
    one of whose inserts fails: status 400 with the text of the failure,
    nothing persisted. *)
Theorem uploadProducts_answers products w :
  (forall message,
      api.uploadProducts server (inl message) w = (w, api.failure 400 message)) /\
  (calm (2 + compositionRows (data.Products_ products)) w ->
   snd (api.uploadProducts server (inr products) w) =
     (200%Z,
      inr (api.mkResponseProduct
             (api.Sprintf_d (len (data.Products_ products)) ++ " product inserted")
             [] [])) /\
   persisted (fst (api.uploadProducts server (inr products) w))
     = withProducts (ins_insertProduct qs) (data.Products_ products) (persisted w)) /\
  (forall e,
      calm (1 + compositionRows (data.Products_ products)) w ->
      faults w (clock w + (1 + compositionRows (data.Products_ products))) = Some e ->
      snd (api.uploadProducts server (inr products) w) =
        (200%Z,
         inr (api.mkResponseProduct
                (api.Sprintf_d (len (data.Products_ products)) ++ " product inserted")
                [] [])) /\
      persisted (fst (api.uploadProducts server (inr products) w)) = persisted w) /\
  (forall k e,
      k < compositionRows (data.Products_ products) ->
      calm (1 + k) w ->
      faults w (clock w + (1 + k)) = Some e ->
      snd (api.uploadProducts server (inr products) w) = api.failure 400 (Error e) /\
      persisted (fst (api.uploadProducts server (inr products) w)) = persisted w).
Proof.
  split; [reflexivity|]. rewrite uploadProducts_of_engine. cbn [fst snd].
  split; [|split].
  - intros Hcalm. rewrite (UploadProducts_run_ok (ins_insertProduct qs) products w Hcalm).
    split; reflexivity.
  - intros e Hcalm Hfail.
    destruct (UploadProducts_run_commit_fails (ins_insertProduct qs) products w e Hcalm Hfail)
      as [Hr Hp].
    rewrite Hr, Hp. split; reflexivity.
  - intros k e Hk Hcalm Hfail.
    destruct (UploadProducts_insert_fails (ins_insertProduct qs) products w k e Hk Hcalm Hfail)
      as (Hr & _ & Hp).
    rewrite Hr, Hp. split; reflexivity.
Qed.

End Handlers.

(** ** The rest of the engine and the handlers on the example store *)

Module Runs.

Import SpecStore.

Local Open Scope string_scope.

Lemma calm_after_failure k n e db :
  calm n (advance (S k) (idle db (failing k e))).
Proof.
  intros i _. cbn [advance idle faults clock]. unfold failing.
  destruct (Nat.eqb_spec (S k + 0 + i) k); [lia|reflexivity].
Qed.

Lemma GetInventory_lists_stock_witness :
  snd (GetInventory getProductStock SpecServer.rows_getInventory (idle furnished never))
    = (None, [data.mkStock "A1" "leg" "5"; data.mkStock "A2" "top" "3"]).
Proof.
  apply (GetInventory_lists_stock getProductStock SpecServer.rows_getInventory
           (idle furnished never) (Examples.calm_never _ furnished)).
Defined.

Lemma listings_change_nothing_witness :
  snd (snd (GetInventory getProductStock SpecServer.rows_getInventory
              (idle furnished (failing 4 reset)))) = [] /\
  snd (snd (GetProductStock (rows_fixed [("gadget", "4"); ("bolt", "2")])
              (idle furnished (failing 4 reset)))) = [].
Proof.
  destruct (listings_change_nothing getProductStock SpecServer.rows_getInventory
              (rows_fixed [("gadget", "4"); ("bolt", "2")])
              (idle furnished (failing 4 reset)))
    as [(_ & _ & Hinv) (_ & _ & Havail)].
  split; [apply Hinv|apply Havail]; vm_compute; discriminate.
Defined.

Lemma listings_return_first_failure_witness :
  snd (GetInventory getProductStock SpecServer.rows_getInventory
         (idle furnished (failing 3 reset))) = (Some reset, []) /\
  snd (GetProductStock (rows_fixed [("gadget", "4"); ("bolt", "2")])
         (idle furnished (failing 3 reset))) = (Some reset, []).
Proof.
  destruct (listings_return_first_failure getProductStock
              SpecServer.rows_getInventory
              (rows_fixed [("gadget", "4"); ("bolt", "2")])
              (idle furnished (failing 3 reset)) 3 reset
              (Examples.calm_before 3 3 reset furnished (le_n 3)) eq_refl)
    as [Hinv Havail].
  split; [apply Hinv|apply Havail]; cbn; lia.
Defined.

Lemma SellProduct_sells_witness :
  snd (SpecStore.SellProduct "table" (idle furnished never)) = None /\
  status (fst (SpecStore.SellProduct "table" (idle furnished never))) = Committed /\
  persisted (fst (SpecStore.SellProduct "table" (idle furnished never)))
    = exec_updateSaleInfo "table" furnished /\
  journal (fst (SpecStore.SellProduct "table" (idle furnished never))) =
    [CallBeginTx; CallQuery productExist ["table"]; CallQuery inStock ["table"];
     CallExec updateSaleInfo ["table"]; CallCommit].
Proof.
  apply (SellProduct_sells rows_productExist rows_inStock exec_updateSaleInfo
           "table" (idle furnished never)).
  - vm_compute. constructor; [discriminate|constructor].
  - vm_compute. constructor; [reflexivity|constructor].
  - apply Examples.calm_never.
Defined.

Lemma SellProduct_returns_write_failure_witness :
  snd (SpecStore.SellProduct "table" (idle furnished (failing 10 reset)))
    = Some reset /\
  persisted (fst (SpecStore.SellProduct "table" (idle furnished (failing 10 reset))))
    = furnished /\
  status (fst (SpecStore.SellProduct "table" (idle furnished (failing 10 reset))))
    <> Committed.
Proof.
  apply (SellProduct_returns_write_failure rows_productExist rows_inStock
           exec_updateSaleInfo "table" (idle furnished (failing 10 reset)) 1 reset).
  - vm_compute. constructor; [discriminate|constructor].
  - vm_compute. constructor; [reflexivity|constructor].
  - lia.
  - apply Examples.calm_before. cbn. lia.
  - reflexivity.
Defined.

Lemma SellProduct_skips_existence_check_witness :
  rows_productExist "chair" furnished = [0%Z] /\
  snd (SpecStore.SellProduct "chair" (idle furnished (failing 2 reset))) = None /\
  status (fst (SpecStore.SellProduct "chair" (idle furnished (failing 2 reset))))
    = Committed.
Proof.
  split; [reflexivity|].
  destruct (SellProduct_skips_existence_check rows_productExist rows_inStock
              exec_updateSaleInfo "chair" (idle furnished (failing 2 reset)) reset
              eq_refl eq_refl eq_refl) as (Hr & Hs & _).
  - vm_compute. constructor; [reflexivity|constructor].
  - apply calm_after_failure.
  - split; assumption.
Defined.

Lemma SellProduct_changes_only_on_commit_witness :
  status (fst (SpecStore.SellProduct "table" (idle depleted never))) <> Committed /\
  persisted (fst (SpecStore.SellProduct "table" (idle depleted never))) = depleted.
Proof.
  destruct (SellProduct_changes_only_on_commit rows_productExist rows_inStock
              exec_updateSaleInfo "table" (idle depleted never)) as (_ & _ & Herr).
  apply Herr. vm_compute. discriminate.
Defined.

Lemma UploadInventory_commits_when_calm_witness :
  snd (SpecStore.UploadInventory stockBatch (idle empty never)) = (None, 2%Z) /\
  status (fst (SpecStore.UploadInventory stockBatch (idle empty never))) = Committed /\
  persisted (fst (SpecStore.UploadInventory stockBatch (idle empty never)))
    = mkDB (data.Inventory_ stockBatch) [] /\
  journal (fst (SpecStore.UploadInventory stockBatch (idle empty never)))
    = [CallBeginTx; CallExec insertStock ["A1"; "leg"; "5"];
       CallExec insertStock ["A2"; "top"; "3"]; CallCommit].
Proof.
  destruct (UploadInventory_commits_when_calm exec_insertStock stockBatch
              (idle empty never) (Examples.calm_never _ empty))
    as (H1 & H2 & H3 & H4 & _).
  repeat split; assumption.
Defined.

Lemma UploadProducts_commits_when_calm_witness :
  snd (SpecStore.UploadProducts tableBatch (idle empty never)) = (None, 1%Z) /\
  status (fst (SpecStore.UploadProducts tableBatch (idle empty never))) = Committed /\
  persisted (fst (SpecStore.UploadProducts tableBatch (idle empty never)))
    = mkDB [] (compositions furnished) /\
  journal (fst (SpecStore.UploadProducts tableBatch (idle empty never)))
    = [CallBeginTx; CallExec insertProduct ["table"; "A1"; "2"];
       CallExec insertProduct ["table"; "A2"; "1"]; CallCommit].
Proof.
  apply (UploadProducts_commits_when_calm exec_insertProduct tableBatch
           (idle empty never) (Examples.calm_never _ empty)).
Defined.

Lemma UploadInventory_twice_witness :
  persisted
    (fst (SpecStore.UploadInventory (data.mkInventory [data.mkStock "A2" "top" "3"])
            (fst (SpecStore.UploadInventory
                    (data.mkInventory [data.mkStock "A1" "leg" "5"])
                    (idle empty never)))))
    = persisted (fst (SpecStore.UploadInventory stockBatch (idle empty never))) /\
  snd (SpecStore.UploadInventory stockBatch (idle empty never)) = (None, (1 + 1)%Z).
Proof.
  destruct (UploadInventory_twice exec_insertStock
              [data.mkStock "A1" "leg" "5"] [data.mkStock "A2" "top" "3"]
              (idle empty never) (Examples.calm_never _ empty))
    as (_ & _ & H3 & H4).
  split; assumption.
Defined.

Lemma operations_end_when_BeginTx_fails_witness :
  db.SellProduct (SpecServer.inventory []) "table" (idle furnished (failing 0 reset))
    = (mkWorld furnished furnished NoTx 1 (failing 0 reset) [CallBeginTx], Some reset) /\
  snd (db.UploadInventory (SpecServer.inventory []) stockBatch
         (idle furnished (failing 0 reset))) = (Some reset, 0%Z).
Proof.
  destruct (operations_end_when_BeginTx_fails (SpecServer.queries []) tableBatch
              stockBatch "table" (idle furnished (failing 0 reset)) reset eq_refl)
    as (_ & _ & _ & Hinv & Hsell).
  split; [exact Hsell|]. unfold SpecServer.inventory. rewrite Hinv. reflexivity.
Defined.

Lemma sellProduct_answers_witness :
  snd (api.sellProduct (SpecServer.inventory []) "chair" (idle furnished never))
    = api.failure 400 "this product is not in system, cannot be sold" /\
  snd (api.sellProduct (SpecServer.inventory []) "table" (idle depleted never))
    = api.failure 400 "this product is not in stock, cannot be sold" /\
  snd (api.sellProduct (SpecServer.inventory []) "table" (idle furnished never))
    = (200%Z,
       inr (api.mkResponseProduct
              "Product table is sold and inventory is updated accordingly" [] [])).
Proof.
  destruct (sellProduct_answers (SpecServer.queries []) "chair" (idle furnished never))
    as (Hmissing & _ & _).
  destruct (sellProduct_answers (SpecServer.queries []) "table" (idle depleted never))
    as (_ & Hdepleted & _).
  destruct (sellProduct_answers (SpecServer.queries []) "table" (idle furnished never))
    as (_ & _ & Hsold).
  split; [|split].
  - apply Hmissing; [vm_compute; apply Exists_cons_hd; reflexivity
                    |apply Examples.calm_never].
  - apply Hdepleted;
      [vm_compute; constructor; [discriminate|constructor]
      |vm_compute; apply Exists_cons_hd; discriminate
      |apply Examples.calm_never].
  - apply Hsold;
      [vm_compute; constructor; [discriminate|constructor]
      |vm_compute; constructor; [reflexivity|constructor]
      |apply Examples.calm_never].
Defined.

Lemma sellProduct_says_sold_when_query_fails_witness :
  snd (api.sellProduct (SpecServer.inventory []) "table"
         (idle furnished (failing 1 reset)))
    = (200%Z,
       inr (api.mkResponseProduct
              "Product table is sold and inventory is updated accordingly" [] [])) /\
  status (fst (api.sellProduct (SpecServer.inventory []) "table"
                 (idle furnished (failing 1 reset)))) = RolledBack /\
  persisted (fst (api.sellProduct (SpecServer.inventory []) "table"
                    (idle furnished (failing 1 reset)))) = furnished.
Proof.
  apply (sellProduct_says_sold_when_query_fails (SpecServer.queries []) "table"
           (idle furnished (failing 1 reset)) reset eq_refl eq_refl).
Defined.

Lemma listing_handlers_answer_witness :
  snd (api.getProductStock (SpecServer.inventory [("widget", "0")])
         (idle furnished never))
    = (200%Z, inr (api.mkResponseProduct "No product in stock" [] [])) /\
  snd (api.getProductStock (SpecServer.inventory [("widget", "0"); ("gadget", "4")])
         (idle furnished never))
    = (200%Z, inr (api.mkResponseProduct "" [] [data.mkProductStock "gadget" "4"])) /\
  snd (api.getInventory (SpecServer.inventory []) (idle empty never))
    = (200%Z, inr (api.mkResponseProduct "" [] [])).
Proof.
  destruct (listing_handlers_answer (SpecServer.queries [("widget", "0")])
              (idle furnished never)) as [Hnone _].
  destruct (listing_handlers_answer
              (SpecServer.queries [("widget", "0"); ("gadget", "4")])
              (idle furnished never)) as [Hsome _].
  destruct (listing_handlers_answer (SpecServer.queries []) (idle empty never))
    as [_ Hinv].
  split; [|split].
  - apply Hnone. apply Examples.calm_never.
  - apply Hsome. apply Examples.calm_never.
  - apply Hinv. apply Examples.calm_never.
Defined.

Lemma listing_handlers_answer_not_found_witness :
  snd (api.getProductStock (SpecServer.inventory [("gadget", "4")])
         (idle furnished (failing 2 reset)))
    = api.failure 404 "connection reset" /\
  snd (api.getInventory (SpecServer.inventory []) (idle furnished (failing 2 reset)))
    = api.failure 404 "connection reset".
Proof.
  destruct (listing_handlers_answer_not_found (SpecServer.queries [("gadget", "4")])
              (idle furnished (failing 2 reset)) 2 reset
              (Examples.calm_before 2 2 reset furnished (le_n 2)) eq_refl)
    as [Havail _].
  destruct (listing_handlers_answer_not_found (SpecServer.queries [])
              (idle furnished (failing 2 reset)) 2 reset
              (Examples.calm_before 2 2 reset furnished (le_n 2)) eq_refl)
    as [_ Hinv].
  split; [apply Havail|apply Hinv]; cbn; lia.
Defined.

Lemma uploadInventory_answers_witness :
  snd (api.uploadInventory (SpecServer.inventory []) (inr stockBatch)
         (idle empty never))
    = (200%Z, inr (api.mkResponseProduct "2 item inserted" [] [])) /\
  snd (api.uploadInventory (SpecServer.inventory []) (inr stockBatch)
         (idle empty (failing 3 reset)))
    = (200%Z, inr (api.mkResponseProduct "0 item inserted" [] [])) /\
  snd (api.uploadInventory (SpecServer.inventory []) (inr stockBatch)
         (idle empty (failing 2 reset)))
    = api.failure 400 "connection reset".
Proof.
  destruct (uploadInventory_answers (SpecServer.queries []) stockBatch
              (idle empty never)) as (_ & Hok & _ & _).
  destruct (uploadInventory_answers (SpecServer.queries []) stockBatch
              (idle empty (failing 3 reset))) as (_ & _ & Hcommit & _).
  destruct (uploadInventory_answers (SpecServer.queries []) stockBatch
              (idle empty (failing 2 reset))) as (_ & _ & _ & Hinsert).
  split; [|split].
  - apply Hok. apply Examples.calm_never.
  - apply (Hcommit reset); [apply Examples.calm_before; cbn; lia|reflexivity].
  - apply (Hinsert 1 reset);
      [cbn; lia|apply Examples.calm_before; cbn; lia|reflexivity].
Defined.

Lemma uploadProducts_answers_witness :
  snd (api.uploadProducts (SpecServer.inventory []) (inr tableBatch)
         (idle empty never))
    = (200%Z, inr (api.mkResponseProduct "1 product inserted" [] [])) /\
  snd (api.uploadProducts (SpecServer.inventory []) (inr tableBatch)
         (idle empty (failing 3 reset)))
    = (200%Z, inr (api.mkResponseProduct "1 product inserted" [] [])) /\
  persisted (fst (api.uploadProducts (SpecServer.inventory []) (inr tableBatch)
                    (idle empty (failing 3 reset)))) = empty /\
  snd (api.uploadProducts (SpecServer.inventory []) (inr tableBatch)
         (idle empty (failing 2 reset)))
    = api.failure 400 "connection reset".
Proof.
  destruct (uploadProducts_answers (SpecServer.queries []) tableBatch
              (idle empty never)) as (_ & Hok & _ & _).
  destruct (uploadProducts_answers (SpecServer.queries []) tableBatch
              (idle empty (failing 3 reset))) as (_ & _ & Hcommit & _).
  destruct (uploadProducts_answers (SpecServer.queries []) tableBatch
              (idle empty (failing 2 reset))) as (_ & _ & _ & Hinsert).
  split; [|split; [|split]].
  - apply Hok. apply Examples.calm_never.
  - apply (Hcommit reset); [apply Examples.calm_before; cbn; lia|reflexivity].
  - apply (Hcommit reset); [apply Examples.calm_before; cbn; lia|reflexivity].
  - apply (Hinsert 1 reset);
      [cbn; lia|apply Examples.calm_before; cbn; lia|reflexivity].
Defined.

End Runs.
